(** * To-Do list manager (src/js/app.js): state management and persistence

    A shallow embedding of the classes [Utils], [TodoItem], [StorageService]
    and [TodoManager] of [src/js/app.js], followed by the properties of the
    store that the specification states.

    Conventions of the embedding.
    - A JavaScript string is the list of its UTF-16 code units ([jsstring]);
      [length] is then the [.length] of the source.
    - Values read back from storage are untyped in the source, so the fields
      of a task that [fromJSON] copies from the stored record ([id],
      [completed], [createdAt], [updatedAt]) hold JSON values ([json]);
      JavaScript truthiness is [truthy].
    - The built-ins the source calls but does not define
      ([String.prototype.toLowerCase], [JSON.parse], [JSON.stringify]) are
      the methods of the class [Runtime]; every result holds for every
      instance.
    - The readings the source takes from its host ([Date.now], [Math.random],
      [new Date().toISOString()], whether [localStorage.setItem] goes through)
      are the fields of a [Host] record handed to each call.
    - [localStorage] under the key [CONFIG.STORAGE_KEY] and the console are
      the two fields of [World]; a thrown [Error] is the [Throw] outcome.
    - Tasks are mutated in place in the source.  [filteredTodos] shares its
      objects with [todos], but every operation that mutates a task rebuilds
      [filteredTodos] from [todos] before it returns and nothing reads
      [filteredTodos] in between, so both are plain lists of task values
      here. *)

From Stdlib Require Import List Bool Arith ZArith NArith Lia String Ascii.
From Stdlib Require Import Floats.PrimFloat.
Import ListNotations.

Set Warnings "-register-all".

(* ===================================================================== *)
(** ** JavaScript strings and JSON values                                 *)
(* ===================================================================== *)

Definition jsstring : Type := list N.

(** An ASCII literal of the source as a list of code units. *)
Definition js (s : string) : jsstring :=
  map N_of_ascii (list_ascii_of_string s).

Fixpoint str_eqb (a b : jsstring) : bool :=
  match a, b with
  | [], [] => true
  | x :: a', y :: b' => N.eqb x y && str_eqb a' b'
  | _, _ => false
  end.

(** The code units that [String.prototype.trim] strips: ECMAScript's
    WhiteSpace (TAB, VT, FF, SP, NBSP, ZWNBSP and the category Zs) and
    LineTerminator (LF, CR, LS, PS).  All of them are in the Basic
    Multilingual Plane, so the test is on one code unit. *)
Definition isWhiteSpace (c : N) : bool :=
  (((9 <=? c) && (c <=? 13)) || (c =? 32) || (c =? 160) || (c =? 5760)
   || ((8192 <=? c) && (c <=? 8202)) || (c =? 8232) || (c =? 8233)
   || (c =? 8239) || (c =? 8287) || (c =? 12288) || (c =? 65279))%N.

Fixpoint trimStart (s : jsstring) : jsstring :=
  match s with
  | [] => []
  | c :: s' => if isWhiteSpace c then trimStart s' else s
  end.

Definition trimEnd (s : jsstring) : jsstring := rev (trimStart (rev s)).

(** [s.trim()] *)
Definition trim (s : jsstring) : jsstring := trimEnd (trimStart s).

Fixpoint startsWith (sub s : jsstring) : bool :=
  match sub, s with
  | [], _ => true
  | x :: sub', y :: s' => N.eqb x y && startsWith sub' s'
  | _ :: _, [] => false
  end.

(** [s.includes(sub)] *)
Fixpoint includes (s sub : jsstring) : bool :=
  startsWith sub s ||
  match s with
  | [] => false
  | _ :: s' => includes s' sub
  end.

(** The order of [<] on two strings: lexicographic on code units.  On the
    output of [toISOString] for years 0000 to 9999 it is the order of the
    instants. *)
Fixpoint str_ltb (a b : jsstring) : bool :=
  match a, b with
  | _, [] => false
  | [], _ :: _ => true
  | x :: a', y :: b' => N.ltb x y || (N.eqb x y && str_ltb a' b')
  end.

(** What [JSON.parse] returns.  An object is the list of its own
    properties, each key once. *)
Inductive json : Type :=
| JNull
| JBool (b : bool)
| JNum (x : float)
| JStr (s : jsstring)
| JArr (items : list json)
| JObj (fields : list (jsstring * json)).

(** ToBoolean.  [undefined], which is falsy, is the [None] of [or_else]. *)
Definition truthy (v : json) : bool :=
  match v with
  | JNull => false
  | JBool b => b
  | JNum x => negb (is_zero x || is_nan x)
  | JStr s => match s with [] => false | _ => true end
  | JArr _ => true
  | JObj _ => true
  end.

(** ToBoolean of a value that may be [undefined]. *)
Definition truthy_opt (a : option json) : bool :=
  match a with
  | Some v => truthy v
  | None => false
  end.

(** [a || b] where [a] may be [undefined]. *)
Definition or_else (a : option json) (b : json) : json :=
  match a with
  | Some v => if truthy v then v else b
  | None => b
  end.

Fixpoint lookup_field (key : jsstring) (fields : list (jsstring * json))
  : option json :=
  match fields with
  | [] => None
  | (k, v) :: rest => if str_eqb k key then Some v else lookup_field key rest
  end.

(** The faults of the storage path, caught inside [StorageService]. *)
Inductive fault : Type := SyntaxError | TypeError.

(** [data.key] for the keys this program reads ([id], [text], [completed],
    [createdAt], [updatedAt]): none of them is a property of the prototypes
    of strings, numbers, booleans, arrays or objects, so the read is
    [undefined] unless [data] is an object that has the key; reading a
    property of [null] throws. *)
Definition get (data : json) (key : jsstring) : fault + option json :=
  match data with
  | JNull => inl TypeError
  | JObj fields => inr (lookup_field key fields)
  | _ => inr None
  end.

(** [v === id] for a string [id]. *)
Definition strict_eq_str (v : json) (id : jsstring) : bool :=
  match v with
  | JStr s => str_eqb s id
  | _ => false
  end.

(** The built-ins the source relies on. *)
Class Runtime : Type := {
  toLowerCase : jsstring -> jsstring;
  (** [None] when [JSON.parse] throws its SyntaxError *)
  JSON_parse : jsstring -> option json;
  JSON_stringify : json -> jsstring
}.

(** The readings one call takes from its host. *)
Record Host : Type := {
  (** [Date.now()] in decimal *)
  date_now : jsstring;
  (** [Math.random().toString(36).substr(2, 9)] *)
  random36 : jsstring;
  (** the successive values of [new Date().toISOString()] *)
  iso : nat -> jsstring;
  (** [localStorage.setItem] returns rather than throws *)
  setItem_ok : bool
}.

Inductive event : Type :=
| ConsoleError (label : string) (cause : option fault)
| Toast (message : string) (type : string).

Record World : Type := {
  (** [localStorage.getItem(CONFIG.STORAGE_KEY)], [None] for [null] *)
  stored : option jsstring;
  console : list event
}.

(** The errors the store throws, by their message. *)
Inductive error : Type := EmptyInput | TooLong | NotFound.

Inductive outcome (A : Type) : Type :=
| Ok (a : A)
| Throw (e : error).
Arguments Ok {A} a.
Arguments Throw {A} e.

(* ===================================================================== *)
(** ** CONFIG and Utils                                                   *)
(* ===================================================================== *)

Module CONFIG.
Definition MAX_TODO_LENGTH : nat := 100.
End CONFIG.

Module Utils.

(** [`todo_${Date.now()}_${Math.random().toString(36).substr(2, 9)}`] *)
Definition generateId (h : Host) : jsstring :=
  js "todo_" ++ date_now h ++ js "_" ++ random36 h.

(** [{ isValid: true, text }] is [Ok text]; [{ isValid: false, error }]
    is [Throw error]: both callers throw [new Error(validation.error)]
    at once. *)
Definition validateTodo (text : jsstring) : outcome jsstring :=
  let trimmed := trim text in
  match trimmed with
  | [] => Throw EmptyInput
  | _ =>
      if CONFIG.MAX_TODO_LENGTH <? List.length trimmed
      then Throw TooLong
      else Ok trimmed
  end.

(** [showToast(message, type)]: one [console.log] of the type and the
    message. *)
Definition showToast (message type : string) (w : World) : World :=
  {| stored := stored w; console := console w ++ [Toast message type] |}.

End Utils.

Definition message (e : error) : string :=
  match e with
  | EmptyInput => "A tarefa não pode estar vazia."
  | TooLong => "A tarefa deve ter no máximo 100 caracteres."
  | NotFound => "Tarefa não encontrada."
  end.

(* ===================================================================== *)
(** ** TodoItem                                                           *)
(* ===================================================================== *)

Module TodoItem.

Record t : Type := {
  id : json;
  text : jsstring;
  completed : json;
  createdAt : json;
  updatedAt : json
}.

(** [new TodoItem(text, id)] for a string [text]; [id] is [None] when the
    argument is left out or [undefined]. *)
Definition new (text0 : jsstring) (id0 : option json) (h : Host) : t :=
  {| id := or_else id0 (JStr (Utils.generateId h));
     text := trim text0;
     completed := JBool false;
     createdAt := JStr (iso h 0);
     updatedAt := JStr (iso h 1) |}.

Definition toggleComplete (todo : t) (h : Host) : t :=
  {| id := id todo;
     text := text todo;
     completed := JBool (negb (truthy (completed todo)));
     createdAt := createdAt todo;
     updatedAt := JStr (iso h 0) |}.

Definition updateText (todo : t) (newText : jsstring) (h : Host) : outcome t :=
  match Utils.validateTodo newText with
  | Throw e => Throw e
  | Ok validText =>
      Ok {| id := id todo;
            text := validText;
            completed := completed todo;
            createdAt := createdAt todo;
            updatedAt := JStr (iso h 0) |}
  end.

Definition toJSON (todo : t) : json :=
  JObj [ (js "id", id todo);
         (js "text", JStr (text todo));
         (js "completed", completed todo);
         (js "createdAt", createdAt todo);
         (js "updatedAt", updatedAt todo) ].

(** [fromJSON(data)].  Reading [data.text] throws on [null]; the
    constructor's [text.trim()] throws unless [data.text] is a string (no
    JSON value other than a string has a callable [trim]).  The
    constructor's own two clock readings are overwritten.  [a || b] reads
    the clock for [b] only when [a] is falsy: the default of createdAt,
    when taken, is the third reading, and the default of updatedAt is the
    reading after it, or the third when createdAt was kept. *)
Definition fromJSON (data : json) (h : Host) : fault + t :=
  match get data (js "text"), get data (js "id") with
  | inr (Some (JStr s)), inr id0 =>
      let todo := new s id0 h in
      let field k := match get data (js k) with inr v => v | inl _ => None end in
      inr {| id := id todo;
             text := text todo;
             completed := or_else (field "completed"%string) (JBool false);
             createdAt := or_else (field "createdAt"%string) (JStr (iso h 2));
             updatedAt :=
               or_else (field "updatedAt"%string)
                 (JStr (iso h (if truthy_opt (field "createdAt"%string)
                               then 2 else 3))) |}
  | _, _ => inl TypeError
  end.

End TodoItem.

(* ===================================================================== *)
(** ** StorageService                                                     *)
(* ===================================================================== *)

Module StorageService.

(** [parsed.map(item => TodoItem.fromJSON(item))]: the items in order,
    each with the host readings of its turn, up to the first throw. *)
Fixpoint map_fromJSON (items : list json) (hosts : nat -> Host) (i : nat)
  : fault + list TodoItem.t :=
  match items with
  | [] => inr []
  | item :: rest =>
      match TodoItem.fromJSON item (hosts i) with
      | inl f => inl f
      | inr todo =>
          match map_fromJSON rest hosts (S i) with
          | inl f => inl f
          | inr todos => inr (todo :: todos)
          end
      end
  end.

(** The body of the [try] of [getTodos], after the [!data] guard.
    [parsed.map] is callable only on an array. *)
Definition decode `{Runtime} (data : jsstring) (hosts : nat -> Host)
  : fault + list TodoItem.t :=
  match JSON_parse data with
  | None => inl SyntaxError
  | Some (JArr items) => map_fromJSON items hosts 0
  | Some _ => inl TypeError
  end.

Definition load_failed (f : fault) (w : World) : World :=
  {| stored := stored w;
     console := console w ++
       [ ConsoleError "Error loading todos from storage:" (Some f);
         Toast "Erro ao carregar as tarefas. Iniciando com lista vazia." "error" ] |}.

Definition getTodos `{Runtime} (hosts : nat -> Host) (w : World)
  : list TodoItem.t * World :=
  match stored w with
  | None => ([], w)
  | Some [] => ([], w)
  | Some data =>
      match decode data hosts with
      | inr todos => (todos, w)
      | inl f => ([], load_failed f w)
      end
  end.

(** [getTodos()] when [localStorage.getItem] itself throws (access to
    storage denied): the [catch] logs the exception, shows the toast and
    returns the empty list, as for any fault of the decoding.  The
    exception is the host's, not one of the decoder's two faults. *)
Definition getTodos_denied (w : World) : list TodoItem.t * World :=
  ([], {| stored := stored w;
          console := console w ++
            [ ConsoleError "Error loading todos from storage:" None;
              Toast "Erro ao carregar as tarefas. Iniciando com lista vazia."
                    "error" ] |}).

(** The whole method: [getItem_ok] says that [localStorage.getItem]
    returns rather than throws; [getTodos] above is the method once it
    has returned. *)
Definition getTodos_try `{Runtime} (getItem_ok : bool) (hosts : nat -> Host)
    (w : World) : list TodoItem.t * World :=
  if getItem_ok then getTodos hosts w else getTodos_denied w.

Definition saveTodos `{Runtime} (todos : list TodoItem.t) (h : Host) (w : World)
  : World :=
  let data := JSON_stringify (JArr (map TodoItem.toJSON todos)) in
  if setItem_ok h
  then {| stored := Some data; console := console w |}
  else {| stored := stored w;
          console := console w ++
            [ ConsoleError "Error saving todos to storage:" None;
              Toast "Erro ao salvar as tarefas." "error" ] |}.

(** [clearTodos()]; [removeItem_ok] says that [localStorage.removeItem]
    returns rather than throws. *)
Definition clearTodos (removeItem_ok : bool) (w : World) : World :=
  if removeItem_ok
  then {| stored := None; console := console w |}
  else {| stored := stored w;
          console := console w ++
            [ ConsoleError "Error clearing todos from storage:" None;
              Toast "Erro ao limpar as tarefas." "error" ] |}.

End StorageService.

(* ===================================================================== *)
(** ** TodoManager                                                        *)
(* ===================================================================== *)

(** [l.find(p)] *)
Fixpoint find_first {A : Type} (p : A -> bool) (l : list A) : option A :=
  match l with
  | [] => None
  | x :: l' => if p x then Some x else find_first p l'
  end.

(** [l.findIndex(p)], [None] for -1 *)
Fixpoint findIndex {A : Type} (p : A -> bool) (l : list A) : option nat :=
  match l with
  | [] => None
  | x :: l' =>
      if p x then Some 0
      else match findIndex p l' with
           | Some i => Some (S i)
           | None => None
           end
  end.

(** [l.splice(index, 1)] *)
Fixpoint splice1 {A : Type} (index : nat) (l : list A) {struct l} : list A :=
  match l, index with
  | [], _ => []
  | _ :: l', 0 => l'
  | x :: l', S i => x :: splice1 i l'
  end.

(** The array after a method has mutated, in place, the object that
    [l.find(p)] returned. *)
Fixpoint mutate_first {A : Type} (p : A -> bool) (f : A -> A) (l : list A)
  : list A :=
  match l with
  | [] => []
  | x :: l' => if p x then f x :: l' else x :: mutate_first p f l'
  end.

Module TodoManager.

Record t : Type := {
  todos : list TodoItem.t;
  filteredTodos : list TodoItem.t;
  currentFilter : jsstring;
  currentSearch : jsstring;
  editingTodoId : option jsstring
}.

Definition has_id (id : jsstring) (todo : TodoItem.t) : bool :=
  strict_eq_str (TodoItem.id todo) id.

Definition set_todos (l : list TodoItem.t) (m : t) : t :=
  {| todos := l;
     filteredTodos := filteredTodos m;
     currentFilter := currentFilter m;
     currentSearch := currentSearch m;
     editingTodoId := editingTodoId m |}.

Definition applyFilters `{Runtime} (m : t) : t :=
  let filtered := todos m in
  let filtered :=
    match currentSearch m with
    | [] => filtered
    | _ =>
        filter (fun todo =>
                  includes (toLowerCase (TodoItem.text todo)) (currentSearch m))
               filtered
    end in
  let filtered :=
    if str_eqb (currentFilter m) (js "pending")
    then filter (fun todo => negb (truthy (TodoItem.completed todo))) filtered
    else if str_eqb (currentFilter m) (js "completed")
    then filter (fun todo => truthy (TodoItem.completed todo)) filtered
    else filtered in
  {| todos := todos m;
     filteredTodos := filtered;
     currentFilter := currentFilter m;
     currentSearch := currentSearch m;
     editingTodoId := editingTodoId m |}.

Definition loadTodos `{Runtime} (hosts : nat -> Host) (m : t) (w : World)
  : t * World :=
  let (l, w') := StorageService.getTodos hosts w in
  (applyFilters (set_todos l m), w').

(** [new TodoManager()] *)
Definition new `{Runtime} (hosts : nat -> Host) (w : World) : t * World :=
  loadTodos hosts
    {| todos := [];
       filteredTodos := [];
       currentFilter := js "all";
       currentSearch := [];
       editingTodoId := None |} w.

(** [new TodoManager()] when [localStorage.getItem] throws. *)
Definition new_denied `{Runtime} (w : World) : t * World :=
  let (l, w') := StorageService.getTodos_denied w in
  (applyFilters
     (set_todos l
        {| todos := [];
           filteredTodos := [];
           currentFilter := js "all";
           currentSearch := [];
           editingTodoId := None |}), w').

Definition saveTodos `{Runtime} (m : t) (h : Host) (w : World) : World :=
  StorageService.saveTodos (todos m) h w.

Definition addTodo `{Runtime} (text : jsstring) (h : Host) (m : t) (w : World)
  : outcome TodoItem.t * t * World :=
  match Utils.validateTodo text with
  | Throw e => (Throw e, m, w)
  | Ok validText =>
      let todo := TodoItem.new validText None h in
      let m1 := set_todos (todo :: todos m) m in
      let w1 := saveTodos m1 h w in
      (Ok todo, applyFilters m1, w1)
  end.

Definition updateTodo `{Runtime} (id : jsstring) (newText : jsstring)
    (h : Host) (m : t) (w : World) : outcome unit * t * World :=
  match find_first (has_id id) (todos m) with
  | None => (Throw NotFound, m, w)
  | Some todo =>
      match TodoItem.updateText todo newText h with
      | Throw e => (Throw e, m, w)
      | Ok todo' =>
          let m1 := set_todos (mutate_first (has_id id) (fun _ => todo') (todos m)) m in
          let w1 := saveTodos m1 h w in
          (Ok tt, applyFilters m1, w1)
      end
  end.

Definition toggleTodo `{Runtime} (id : jsstring) (h : Host) (m : t) (w : World)
  : outcome unit * t * World :=
  match find_first (has_id id) (todos m) with
  | None => (Throw NotFound, m, w)
  | Some _ =>
      let m1 := set_todos
                  (mutate_first (has_id id)
                     (fun todo => TodoItem.toggleComplete todo h) (todos m)) m in
      let w1 := saveTodos m1 h w in
      (Ok tt, applyFilters m1, w1)
  end.

Definition deleteTodo `{Runtime} (id : jsstring) (h : Host) (m : t) (w : World)
  : outcome unit * t * World :=
  match findIndex (has_id id) (todos m) with
  | None => (Throw NotFound, m, w)
  | Some index =>
      let m1 := set_todos (splice1 index (todos m)) m in
      let w1 := saveTodos m1 h w in
      (Ok tt, applyFilters m1, w1)
  end.

Definition setSearch `{Runtime} (searchTerm : jsstring) (m : t) : t :=
  applyFilters
    {| todos := todos m;
       filteredTodos := filteredTodos m;
       currentFilter := currentFilter m;
       currentSearch := trim (toLowerCase searchTerm);
       editingTodoId := editingTodoId m |}.

Definition setFilter `{Runtime} (filter : jsstring) (m : t) : t :=
  applyFilters
    {| todos := todos m;
       filteredTodos := filteredTodos m;
       currentFilter := filter;
       currentSearch := currentSearch m;
       editingTodoId := editingTodoId m |}.

Record Stats : Type := { total : Z; pending : Z; completed : Z }.

Definition getStats (m : t) : Stats :=
  let total := Z.of_nat (List.length (todos m)) in
  let completed :=
    Z.of_nat (List.length (filter (fun todo => truthy (TodoItem.completed todo))
                             (todos m))) in
  let pending := (total - completed)%Z in
  {| total := total; pending := pending; completed := completed |}.

Definition startEditing (id : jsstring) (m : t) : t :=
  {| todos := todos m;
     filteredTodos := filteredTodos m;
     currentFilter := currentFilter m;
     currentSearch := currentSearch m;
     editingTodoId := Some id |}.

Definition stopEditing (m : t) : t :=
  {| todos := todos m;
     filteredTodos := filteredTodos m;
     currentFilter := currentFilter m;
     currentSearch := currentSearch m;
     editingTodoId := None |}.

(** What [getEditingTodo()] returns: [null] when the slot is falsy, else
    the result of [find], a task or [undefined]. *)
Inductive editing_todo : Type :=
| EditingNull
| EditingUndefined
| EditingTodo (todo : TodoItem.t).

Definition getEditingTodo (m : t) : editing_todo :=
  match editingTodoId m with
  | None => EditingNull
  | Some [] => EditingNull
  | Some id =>
      match find_first (has_id id) (todos m) with
      | Some todo => EditingTodo todo
      | None => EditingUndefined
      end
  end.

End TodoManager.

(* ===================================================================== *)
(** ** The store as a transition system                                   *)
(* ===================================================================== *)

(** The entry points the UI adapter calls, with the host readings of the
    call. *)
Inductive call : Type :=
| AddTodo (text : jsstring) (h : Host)
| UpdateTodo (id : jsstring) (newText : jsstring) (h : Host)
| ToggleTodo (id : jsstring) (h : Host)
| DeleteTodo (id : jsstring) (h : Host)
| SetSearch (searchTerm : jsstring)
| SetFilter (filter : jsstring)
| StartEditing (id : jsstring)
| StopEditing.

Definition state : Type := (TodoManager.t * World)%type.

(** One call, whatever its outcome: the adapter catches what is thrown. *)
Definition run `{Runtime} (c : call) (s : state) : state :=
  let (m, w) := s in
  match c with
  | AddTodo text h =>
      let '(_, m', w') := TodoManager.addTodo text h m w in (m', w')
  | UpdateTodo id newText h =>
      let '(_, m', w') := TodoManager.updateTodo id newText h m w in (m', w')
  | ToggleTodo id h =>
      let '(_, m', w') := TodoManager.toggleTodo id h m w in (m', w')
  | DeleteTodo id h =>
      let '(_, m', w') := TodoManager.deleteTodo id h m w in (m', w')
  | SetSearch searchTerm => (TodoManager.setSearch searchTerm m, w)
  | SetFilter filter => (TodoManager.setFilter filter m, w)
  | StartEditing id => (TodoManager.startEditing id m, w)
  | StopEditing => (TodoManager.stopEditing m, w)
  end.

Definition run_all `{Runtime} (cs : list call) (s : state) : state :=
  fold_left (fun s c => run c s) cs s.

(** The states of a store: constructed over any storage content, or
    over a storage that cannot be read, then driven by any calls. *)
Inductive reachable `{Runtime} : state -> Prop :=
| reachable_new (hosts : nat -> Host) (w : World) :
    reachable (TodoManager.new hosts w)
| reachable_new_denied (w : World) :
    reachable (TodoManager.new_denied w)
| reachable_run (c : call) (s : state) :
    reachable s -> reachable (run c s).

(** The two calls that touch the view state only. *)
Inductive view_call : Type :=
| ViewSearch (searchTerm : jsstring)
| ViewFilter (filter : jsstring).

Definition run_view `{Runtime} (m : TodoManager.t) (v : view_call) : TodoManager.t :=
  match v with
  | ViewSearch searchTerm => TodoManager.setSearch searchTerm m
  | ViewFilter filter => TodoManager.setFilter filter m
  end.

(* ===================================================================== *)
(** ** The specification's side of the comparisons                        *)
(* ===================================================================== *)

Inductive status : Type := All | Pending | Completed.

Definition status_name (st : status) : jsstring :=
  match st with
  | All => js "all"
  | Pending => js "pending"
  | Completed => js "completed"
  end.

(** The search predicate: the text contains the term, case folded. *)
Definition matches_search `{Runtime} (term : jsstring) (todo : TodoItem.t) : bool :=
  includes (toLowerCase (TodoItem.text todo)) term.

Definition keeps_status (st : status) (todo : TodoItem.t) : bool :=
  match st with
  | All => true
  | Pending => negb (truthy (TodoItem.completed todo))
  | Completed => truthy (TodoItem.completed todo)
  end.

(** collection -> filter by search term -> filter by status *)
Definition derived_view `{Runtime} (collection : list TodoItem.t)
    (term : jsstring) (st : status) : list TodoItem.t :=
  filter (keeps_status st) (filter (matches_search term) collection).

(** [setSearch]'s normal form of a term. *)
Definition normalize `{Runtime} (term : jsstring) : jsstring :=
  trim (toLowerCase term).

(** The counters, each counted on the collection. *)
Definition count_stats (collection : list TodoItem.t) : TodoManager.Stats :=
  {| TodoManager.total := Z.of_nat (List.length collection);
     TodoManager.pending :=
       Z.of_nat (List.length
                   (filter (fun todo => negb (truthy (TodoItem.completed todo)))
                           collection));
     TodoManager.completed :=
       Z.of_nat (List.length
                   (filter (fun todo => truthy (TodoItem.completed todo))
                           collection)) |}.

(** A stored record that [fromJSON] decodes: an object with a string
    [text].  Every other field may be missing or of any type. *)
Definition decodable_record (item : json) : bool :=
  match item with
  | JObj fields =>
      match lookup_field (js "text") fields with
      | Some (JStr _) => true
      | _ => false
      end
  | _ => false
  end.

(** The shape [getTodos] accepts: an array of decodable records. *)
Definition expected_shape (v : json) : bool :=
  match v with
  | JArr items => forallb decodable_record items
  | _ => false
  end.

Definition parseable `{Runtime} (data : jsstring) : bool :=
  match JSON_parse data with
  | Some v => expected_shape v
  | None => false
  end.

Definition nonempty_string (v : json) : bool :=
  match v with
  | JStr (_ :: _) => true
  | _ => false
  end.

Definition is_boolean (v : json) : bool :=
  match v with
  | JBool _ => true
  | _ => false
  end.

(** A task of the data model: a non-empty string id, a text that
    validation accepts as it is, a boolean flag, two timestamps. *)
Definition valid_task (todo : TodoItem.t) : bool :=
  nonempty_string (TodoItem.id todo)
  && match Utils.validateTodo (TodoItem.text todo) with
     | Ok validText => str_eqb validText (TodoItem.text todo)
     | Throw _ => false
     end
  && is_boolean (TodoItem.completed todo)
  && nonempty_string (TodoItem.createdAt todo)
  && nonempty_string (TodoItem.updatedAt todo).

(** What the decoder needs of a task to give it back; [valid_task]
    implies it. *)
Definition survives_storage (todo : TodoItem.t) : bool :=
  truthy (TodoItem.id todo)
  && str_eqb (trim (TodoItem.text todo)) (TodoItem.text todo)
  && (truthy (TodoItem.completed todo) || is_boolean (TodoItem.completed todo))
  && truthy (TodoItem.createdAt todo)
  && truthy (TodoItem.updatedAt todo).

Definition serialize (collection : list TodoItem.t) : list json :=
  map TodoItem.toJSON collection.

Definition deserialize (records : list json) (hosts : nat -> Host)
  : fault + list TodoItem.t :=
  StorageService.map_fromJSON records hosts 0.

(** [a < b] on two timestamps that are strings. *)
Definition earlier (a b : json) : bool :=
  match a, b with
  | JStr x, JStr y => str_ltb x y
  | _, _ => false
  end.

Definition outcome_of {A : Type} (r : outcome A * TodoManager.t * World) : outcome A :=
  fst (fst r).

Definition manager_of {A : Type} (r : outcome A * TodoManager.t * World)
  : TodoManager.t :=
  snd (fst r).

Definition world_of {A : Type} (r : outcome A * TodoManager.t * World) : World :=
  snd r.

(* ===================================================================== *)
(** ** A runtime and sample data for the worked examples                  *)
(* ===================================================================== *)

(** [toLowerCase] on a code unit of an ASCII string. *)
Definition ascii_lower (c : N) : N :=
  if ((65 <=? c) && (c <=? 90))%N then (c + 32)%N else c.

(** [JSON.stringify] on the values of the examples: no number, and no
    string that needs an escape. *)
Fixpoint sample_stringify (v : json) : jsstring :=
  match v with
  | JNull => js "null"
  | JBool true => js "true"
  | JBool false => js "false"
  | JNum _ => js "null"
  | JStr s => [34%N] ++ s ++ [34%N]
  | JArr items =>
      js "[" ++
      (fix elements (l : list json) : jsstring :=
         match l with
         | [] => []
         | x :: l' =>
             sample_stringify x ++
             match l' with [] => [] | _ => js "," ++ elements l' end
         end) items ++
      js "]"
  | JObj fields =>
      js "{" ++
      (fix members (l : list (jsstring * json)) : jsstring :=
         match l with
         | [] => []
         | (k, x) :: l' =>
             [34%N] ++ k ++ [34%N] ++ js ":" ++ sample_stringify x ++
             match l' with [] => [] | _ => js "," ++ members l' end
         end) fields ++
      js "}"
  end.

Definition sample_record (id text : string) : json :=
  JObj [ (js "id", JStr (js id));
         (js "text", JStr (js text));
         (js "completed", JBool false);
         (js "createdAt", JStr (js "2023-11-14T22:13:20.000Z"));
         (js "updatedAt", JStr (js "2023-11-14T22:13:20.000Z")) ].

(** Two stored records under one id. *)
Definition twins : json :=
  JArr [ sample_record "a" "Buy milk"; sample_record "a" "Walk dog" ].

(** [JSON.parse] on the blobs of the examples: the text of each value
    below parses to it, and every other text the examples use is not
    JSON. *)
Definition sample_values : list json :=
  [ JArr []; twins; JObj []; JArr [JNull]; JArr [JObj [(js "id", JStr (js "a"))]] ].

Definition sample_parse (data : jsstring) : option json :=
  find_first (fun v => str_eqb (sample_stringify v) data) sample_values.

Definition sample_runtime : Runtime :=
  {| toLowerCase := map ascii_lower;
     JSON_parse := sample_parse;
     JSON_stringify := sample_stringify |}.

(** Host readings at three instants.  Two calls within one millisecond
    read the same clock value, hence are given the same [Host]. *)
Definition host0 : Host :=
  {| date_now := js "1700000000000";
     random36 := js "k3j9x0q1z";
     iso := fun _ => js "2023-11-14T22:13:20.000Z";
     setItem_ok := true |}.

Definition host1 : Host :=
  {| date_now := js "1700000005000";
     random36 := js "p7w2m4c8d";
     iso := fun _ => js "2023-11-14T22:13:25.000Z";
     setItem_ok := true |}.

Definition host2 : Host :=
  {| date_now := js "1700000009000";
     random36 := js "b1n5v6t2r";
     iso := fun _ => js "2023-11-14T22:13:29.000Z";
     setItem_ok := true |}.

(** A host whose clock moves by a millisecond from one reading to the
    next (the first ten readings). *)
Definition host_ticking : Host :=
  {| date_now := js "1700000005000";
     random36 := js "p7w2m4c8d";
     iso := fun n =>
       js "2023-11-14T22:13:25.00" ++ [(48 + N.of_nat (n mod 10))%N] ++ js "Z";
     setItem_ok := true |}.

Definition first_run : World := {| stored := None; console := [] |}.

Definition world_with (data : jsstring) : World :=
  {| stored := Some data; console := [] |}.

(** A fresh store, then "Walk dog" and "Buy milk" added in that order. *)
Definition two_tasks : state :=
  run_all (H := sample_runtime)
    [ AddTodo (js "Walk dog") host0; AddTodo (js "  Buy milk ") host1 ]
    (TodoManager.new (H := sample_runtime) (fun _ => host0) first_run).

Definition id0 : jsstring := Utils.generateId host0.

(** A store constructed over a blob that holds [twins]. *)
Definition twin_store : state :=
  TodoManager.new (H := sample_runtime) (fun _ => host0)
    (world_with (sample_stringify twins)).

Definition repeat_char (c : N) (n : nat) : jsstring := repeat c n.

(** The claims that the code does not meet, as they are worded. *)

(** C4, second half: a blob that is present and not parseable gives the
    empty list and exactly one console error and one toast. *)
Definition unparseable_blob_warns_once `{Runtime} : Prop :=
  forall (hosts : nat -> Host) (w : World) (data : jsstring),
    stored w = Some data ->
    parseable data = false ->
    exists e1 e2,
      StorageService.getTodos hosts w =
      ([], {| stored := stored w; console := console w ++ [e1; e2] |}).

(** C7: a successful update of the task being edited clears the slot. *)
Definition update_clears_editing `{Runtime} : Prop :=
  forall (id newText : jsstring) (h : Host) (m : TodoManager.t) (w : World),
    TodoManager.editingTodoId m = Some id ->
    outcome_of (TodoManager.updateTodo id newText h m w) = Ok tt ->
    TodoManager.editingTodoId
      (manager_of (TodoManager.updateTodo id newText h m w)) = None.

(** C8: two toggles restore the flag and each moves [updatedAt] forward. *)
Definition toggle_twice_advances `{Runtime} : Prop :=
  forall (id : jsstring) (h1 h2 : Host) (m : TodoManager.t) (w : World)
         (todo : TodoItem.t),
    find_first (TodoManager.has_id id) (TodoManager.todos m) = Some todo ->
    let r1 := TodoManager.toggleTodo id h1 m w in
    let r2 := TodoManager.toggleTodo id h2 (manager_of r1) (world_of r1) in
    exists todo1 todo2,
      find_first (TodoManager.has_id id) (TodoManager.todos (manager_of r1))
        = Some todo1 /\
      find_first (TodoManager.has_id id) (TodoManager.todos (manager_of r2))
        = Some todo2 /\
      TodoItem.completed todo2 = TodoItem.completed todo /\
      earlier (TodoItem.updatedAt todo) (TodoItem.updatedAt todo1) = true /\
      earlier (TodoItem.updatedAt todo1) (TodoItem.updatedAt todo2) = true.

(** C9, "in particular": after a delete that succeeded, the same delete
    fails with NotFound. *)
Definition second_delete_not_found `{Runtime} : Prop :=
  forall (id : jsstring) (h h' : Host) (s : state),
    reachable s ->
    outcome_of (TodoManager.deleteTodo id h (fst s) (snd s)) = Ok tt ->
    let r := TodoManager.deleteTodo id h (fst s) (snd s) in
    outcome_of (TodoManager.deleteTodo id h' (manager_of r) (world_of r))
      = Throw NotFound.

(** Invariants of the store, and two more sample stores. *)

(** A store whose view is the one [applyFilters] computes. *)
Definition view_current `{Runtime} (m : TodoManager.t) : Prop :=
  TodoManager.applyFilters m = m.

(** Every task of a collection has a truthy id. *)
Definition ids_truthy (l : list TodoItem.t) : bool :=
  forallb (fun todo => truthy (TodoItem.id todo)) l.

(** The store of [two_tasks] after a search for " MILK ". *)
Definition searched : state :=
  run (H := sample_runtime) (SetSearch (js " MILK ")) two_tasks.

(** The store of [two_tasks] with its older task being edited. *)
Definition editing_walk_dog : TodoManager.t :=
  TodoManager.startEditing id0 (fst two_tasks).

(* ===================================================================== *)
(** ** UIController: what the handlers do to the store and the console    *)
(* ===================================================================== *)

(** The document is outside the model.  The handlers are taken on a page
    that has the elements of [SELECTORS], so that [this.elements.x?.]
    reads the element, and whose DOM methods return; what the handlers
    write to the page ([render], the forms shown and hidden, the inputs
    cleared and focused) is left out: the store reads none of it.  The
    [value] of an input and the answer of [confirm] are arguments. *)
Module UIController.

(** [hideEditForm()] *)
Definition hideEditForm (s : state) : state :=
  (TodoManager.stopEditing (fst s), snd s).

Definition handleAddTodo `{Runtime} (value : jsstring) (h : Host) (s : state)
  : state :=
  match trim value with
  | [] => s
  | text =>
      match TodoManager.addTodo text h (fst s) (snd s) with
      | (Ok _, m', w') =>
          (m', Utils.showToast "Tarefa adicionada com sucesso!" "success" w')
      | (Throw e, m', w') => (m', Utils.showToast (message e) "error" w')
      end
  end.

(** [updateTodo(editingTodo.id, newText)]: the task that [getEditingTodo]
    found has the string in the slot as its id. *)
Definition handleEditTodo `{Runtime} (value : jsstring) (h : Host) (s : state)
  : state :=
  match trim value, TodoManager.getEditingTodo (fst s),
        TodoManager.editingTodoId (fst s) with
  | _ :: _, TodoManager.EditingTodo _, Some id =>
      match TodoManager.updateTodo id (trim value) h (fst s) (snd s) with
      | (Ok _, m', w') =>
          let (m2, w2) := hideEditForm (m', w') in
          (m2, Utils.showToast "Tarefa atualizada com sucesso!" "success" w2)
      | (Throw e, m', w') => (m', Utils.showToast (message e) "error" w')
      end
  | _, _, _ => s
  end.

Definition handleCancelEdit (s : state) : state := hideEditForm s.

Definition handleSearch `{Runtime} (searchTerm : jsstring) (s : state) : state :=
  (TodoManager.setSearch searchTerm (fst s), snd s).

Definition handleClearSearch `{Runtime} (s : state) : state := handleSearch [] s.

Definition handleFilterChange `{Runtime} (value : jsstring) (s : state) : state :=
  (TodoManager.setFilter value (fst s), snd s).

Definition handleToggleTodo `{Runtime} (todoId : jsstring) (h : Host) (s : state)
  : state :=
  match TodoManager.toggleTodo todoId h (fst s) (snd s) with
  | (Ok _, m', w') => (m', Utils.showToast "Status da tarefa atualizado!" "success" w')
  | (Throw e, m', w') => (m', Utils.showToast (message e) "error" w')
  end.

Definition handleStartEdit (todoId : jsstring) (s : state) : state :=
  match find_first (TodoManager.has_id todoId) (TodoManager.todos (fst s)) with
  | None => s
  | Some _ => (TodoManager.startEditing todoId (fst s), snd s)
  end.

Definition handleDeleteTodo `{Runtime} (todoId : jsstring) (confirmed : bool)
    (h : Host) (s : state) : state :=
  if confirmed
  then match TodoManager.deleteTodo todoId h (fst s) (snd s) with
       | (Ok _, m', w') =>
           (m', Utils.showToast "Tarefa excluída com sucesso!" "success" w')
       | (Throw e, m', w') => (m', Utils.showToast (message e) "error" w')
       end
  else s.

End UIController.

(** Further notions for the properties of the store. *)

(** The host readings of a call that takes some. *)
Definition host_of (c : call) : option Host :=
  match c with
  | AddTodo _ h | UpdateTodo _ _ h | ToggleTodo _ h | DeleteTodo _ h => Some h
  | _ => None
  end.

(** Storage accepts the write of this call, if it makes one. *)
Definition storage_works (c : call) : bool :=
  match host_of c with
  | Some h => setItem_ok h
  | None => true
  end.

(** The stored text is the encoding of the collection in memory. *)
Definition in_sync `{Runtime} (s : state) : Prop :=
  stored (snd s)
  = Some (JSON_stringify (JArr (serialize (TodoManager.todos (fst s))))).

(** No two tasks of the collection under one id. *)
Definition unique_ids (l : list TodoItem.t) : Prop :=
  NoDup (map TodoItem.id l).

(** Every text of the collection is one that validation returns as it
    is: trimmed, not empty, at most 100 code units. *)
Definition text_valid (todo : TodoItem.t) : bool :=
  match Utils.validateTodo (TodoItem.text todo) with
  | Ok validText => str_eqb validText (TodoItem.text todo)
  | Throw _ => false
  end.

Definition texts_valid (l : list TodoItem.t) : bool := forallb text_valid l.

(** A stored field that [fromJSON] replaces by its default: missing or
    falsy. *)
Definition defaulted (v : option json) : bool :=
  match v with
  | Some x => negb (truthy x)
  | None => true
  end.

(** The task a status filter and a search term let through. *)
Definition passes `{Runtime} (m : TodoManager.t) (todo : TodoItem.t) : bool :=
  (match TodoManager.currentSearch m with
   | [] => true
   | _ => includes (toLowerCase (TodoItem.text todo)) (TodoManager.currentSearch m)
   end)
  && (if str_eqb (TodoManager.currentFilter m) (js "pending")
      then negb (truthy (TodoItem.completed todo))
      else if str_eqb (TodoManager.currentFilter m) (js "completed")
      then truthy (TodoItem.completed todo)
      else true).

(** One, as a count, when the flag is truthy. *)
Definition flag_count (v : json) : Z := if truthy v then 1%Z else 0%Z.

(** The id generated from the readings of [host1]. *)
Definition id_host1 : jsstring := Utils.generateId host1.

(** A task whose text [trim] leaves as it is, and whose id is truthy. *)
Definition text_trimmed (todo : TodoItem.t) : bool :=
  str_eqb (trim (TodoItem.text todo)) (TodoItem.text todo).

Definition has_id_and_trimmed (todo : TodoItem.t) : bool :=
  truthy (TodoItem.id todo) && text_trimmed todo.

(** The same call with [localStorage.setItem] working or not. *)
Definition set_setItem_ok (b : bool) (h : Host) : Host :=
  {| date_now := date_now h;
     random36 := random36 h;
     iso := iso h;
     setItem_ok := b |}.

Definition with_storage (b : bool) (c : call) : call :=
  match c with
  | AddTodo text h => AddTodo text (set_setItem_ok b h)
  | UpdateTodo id newText h => UpdateTodo id newText (set_setItem_ok b h)
  | ToggleTodo id h => ToggleTodo id (set_setItem_ok b h)
  | DeleteTodo id h => DeleteTodo id (set_setItem_ok b h)
  | _ => c
  end.

(** What a failed [saveTodos] writes to the console. *)
Definition save_failed_events : list event :=
  [ ConsoleError "Error saving todos to storage:" None;
    Toast "Erro ao salvar as tarefas." "error" ].

(** The store a constructor leaves when it loads nothing. *)
Definition empty_manager : TodoManager.t :=
  {| TodoManager.todos := [];
     TodoManager.filteredTodos := [];
     TodoManager.currentFilter := js "all";
     TodoManager.currentSearch := [];
     TodoManager.editingTodoId := None |}.

(** A code unit that is a decimal digit. *)
Definition is_digit (c : N) : bool := ((48 <=? c) && (c <=? 57))%N.

(* ===================================================================== *)
(** ** Strings                                                            *)
(* ===================================================================== *)

Lemma str_eqb_refl (a : jsstring) : str_eqb a a = true.
Proof.
  induction a as [|x a IH]; simpl; [reflexivity|].
  now rewrite N.eqb_refl, IH.
Qed.

Lemma str_eqb_eq (a b : jsstring) : str_eqb a b = true <-> a = b.
Proof.
  split.
  - revert b. induction a as [|x a IH]; intros [|y b] E; simpl in E;
      try discriminate; [reflexivity|].
    apply andb_true_iff in E. destruct E as [Exy E].
    apply N.eqb_eq in Exy. subst y. f_equal. now apply IH.
  - intros ->. apply str_eqb_refl.
Qed.

Lemma str_eqb_neq (a b : jsstring) : str_eqb a b = false <-> a <> b.
Proof.
  split.
  - intros E Eab. apply str_eqb_eq in Eab. congruence.
  - intros N. destruct (str_eqb a b) eqn:E; [|reflexivity].
    apply str_eqb_eq in E. contradiction.
Qed.

Lemma str_ltb_irrefl (a : jsstring) : str_ltb a a = false.
Proof.
  induction a as [|x a IH]; simpl; [reflexivity|].
  now rewrite N.ltb_irrefl, IH, andb_false_r.
Qed.

Lemma trimStart_split (s : jsstring) :
  exists a, s = a ++ trimStart s /\ forallb isWhiteSpace a = true.
Proof.
  induction s as [|c s [a [E Ha]]]; simpl.
  - exists []. split; reflexivity.
  - destruct (isWhiteSpace c) eqn:Ec.
    + exists (c :: a). simpl. rewrite Ec, Ha. split; [now f_equal|reflexivity].
    + exists []. split; reflexivity.
Qed.

Lemma trimStart_head (s r : jsstring) (c : N) :
  trimStart s = c :: r -> isWhiteSpace c = false.
Proof.
  induction s as [|x s IH]; simpl; [discriminate|].
  destruct (isWhiteSpace x) eqn:Ex; [exact IH|].
  intros E. injection E as -> _. exact Ex.
Qed.

Lemma trimStart_fixed (s : jsstring) (c : N) :
  isWhiteSpace c = false -> trimStart (c :: s) = c :: s.
Proof. intros E. simpl. now rewrite E. Qed.

Lemma trimStart_idempotent (s : jsstring) : trimStart (trimStart s) = trimStart s.
Proof.
  destruct (trimStart s) as [|c r] eqn:E; [reflexivity|].
  apply trimStart_fixed. eapply trimStart_head. exact E.
Qed.

Lemma trimStart_keeps_last (l : jsstring) (c : N) :
  isWhiteSpace c = false -> exists x, trimStart (l ++ [c]) = x ++ [c].
Proof.
  intros Ec. induction l as [|a l [x IH]]; simpl.
  - rewrite Ec. now exists [].
  - destruct (isWhiteSpace a).
    + now exists x.
    + now exists (a :: l).
Qed.

Lemma trimEnd_nil : trimEnd [] = [].
Proof. reflexivity. Qed.

Lemma trimEnd_keeps_head (r : jsstring) (c : N) :
  isWhiteSpace c = false -> exists x, trimEnd (c :: r) = c :: x.
Proof.
  intros Ec. unfold trimEnd. simpl rev.
  destruct (trimStart_keeps_last (rev r) c Ec) as [x E].
  rewrite E, rev_app_distr. simpl. now exists (rev x).
Qed.

Lemma trimEnd_idempotent (s : jsstring) : trimEnd (trimEnd s) = trimEnd s.
Proof.
  unfold trimEnd. now rewrite rev_involutive, trimStart_idempotent.
Qed.

Lemma trimEnd_split (s : jsstring) :
  exists b, s = trimEnd s ++ b /\ forallb isWhiteSpace b = true.
Proof.
  destruct (trimStart_split (rev s)) as [a [E Ha]].
  exists (rev a). split.
  - unfold trimEnd. rewrite <- rev_app_distr, <- E. symmetry. apply rev_involutive.
  - rewrite forallb_forall in *. intros x Hx. apply Ha. now apply in_rev.
Qed.

Lemma trimEnd_last (s r : jsstring) (c : N) :
  trimEnd s = r ++ [c] -> isWhiteSpace c = false.
Proof.
  unfold trimEnd. intros E.
  apply (f_equal (@rev N)) in E. rewrite rev_involutive, rev_app_distr in E.
  simpl in E. eapply trimStart_head. exact E.
Qed.

(** [trim] fixes what it returns: the constructor may trim again a text
    that validation has already trimmed. *)
Lemma trim_idempotent (s : jsstring) : trim (trim s) = trim s.
Proof.
  unfold trim. destruct (trimStart s) as [|c r] eqn:E.
  - reflexivity.
  - pose proof (trimStart_head _ _ _ E) as Ec.
    destruct (trimEnd_keeps_head r c Ec) as [x Ex].
    rewrite Ex, (trimStart_fixed _ _ Ec), <- Ex. apply trimEnd_idempotent.
Qed.

(** [trim s] is [s] less a run of white space at each end, and is not
    itself bordered by white space. *)
Lemma trim_spec (s : jsstring) :
  exists a b,
    s = a ++ trim s ++ b /\
    forallb isWhiteSpace a = true /\ forallb isWhiteSpace b = true /\
    (forall c r, trim s = c :: r -> isWhiteSpace c = false) /\
    (forall c r, trim s = r ++ [c] -> isWhiteSpace c = false).
Proof.
  destruct (trimStart_split s) as [a [Ea Ha]].
  destruct (trimEnd_split (trimStart s)) as [b [Eb Hb]].
  exists a, b. unfold trim. repeat split; trivial.
  - now rewrite <- Eb.
  - intros c r E. destruct (trimStart s) as [|c0 r0] eqn:E0.
    + discriminate.
    + pose proof (trimStart_head _ _ _ E0) as Ec.
      destruct (trimEnd_keeps_head r0 c0 Ec) as [x Ex].
      rewrite Ex in E. now injection E as <- _.
  - intros c r E. eapply trimEnd_last. exact E.
Qed.

Lemma trim_nil : trim [] = [].
Proof. reflexivity. Qed.

Lemma startsWith_spec (sub s : jsstring) :
  startsWith sub s = true <-> exists b, s = sub ++ b.
Proof.
  revert s. induction sub as [|x sub IH]; intros s; simpl.
  - split; [intros _; now exists s|reflexivity].
  - destruct s as [|y s].
    + split; [discriminate|]. intros [b E]. discriminate.
    + rewrite andb_true_iff, N.eqb_eq, IH. split.
      * intros [-> [b ->]]. now exists b.
      * intros [b E]. injection E as -> ->. split; [reflexivity|now exists b].
Qed.

(** [includes] is the substring test. *)
Lemma includes_spec (s sub : jsstring) :
  includes s sub = true <-> exists a b, s = a ++ sub ++ b.
Proof.
  induction s as [|y s IH].
  - simpl. rewrite orb_false_r, startsWith_spec. split.
    + intros [b E]. now exists [], b.
    + intros [a [b E]]. destruct a; simpl in E; [now exists b|discriminate].
  - cbn [includes]. rewrite orb_true_iff, startsWith_spec, IH. split.
    + intros [[b E]|[a [b E]]].
      * now exists [], b.
      * exists (y :: a), b. simpl. now f_equal.
    + intros [[|x a] [b E]].
      * left. now exists b.
      * right. simpl in E. injection E as _ ->. now exists a, b.
Qed.

Lemma includes_empty (s : jsstring) : includes s [] = true.
Proof. destruct s; reflexivity. Qed.

(* ===================================================================== *)
(** ** Arrays: find, findIndex, splice and mutation in place              *)
(* ===================================================================== *)

Section Arrays.

Context {A : Type}.
Variable p : A -> bool.

Lemma find_first_split (l : list A) (x : A) :
  find_first p l = Some x ->
  exists l1 l2,
    l = l1 ++ x :: l2 /\ forallb (fun y => negb (p y)) l1 = true /\ p x = true.
Proof.
  induction l as [|y l IH]; simpl; [discriminate|].
  destruct (p y) eqn:Ey.
  - intros E. injection E as <-. exists [], l. auto.
  - intros E. destruct (IH E) as [l1 [l2 [-> [H1 Hx]]]].
    exists (y :: l1), l2. simpl. rewrite Ey, H1. auto.
Qed.

Lemma find_first_app (l1 l2 : list A) (x : A) :
  forallb (fun y => negb (p y)) l1 = true -> p x = true ->
  find_first p (l1 ++ x :: l2) = Some x.
Proof.
  intros H1 Hx. induction l1 as [|y l1 IH]; simpl.
  - now rewrite Hx.
  - simpl in H1. apply andb_true_iff in H1. destruct H1 as [Hy H1].
    apply negb_true_iff in Hy. rewrite Hy. now apply IH.
Qed.

Lemma find_first_none (l : list A) :
  find_first p l = None <-> forallb (fun y => negb (p y)) l = true.
Proof.
  induction l as [|y l IH]; simpl; [tauto|].
  destruct (p y); simpl; [split; discriminate|exact IH].
Qed.

Lemma findIndex_none (l : list A) :
  findIndex p l = None <-> find_first p l = None.
Proof.
  induction l as [|y l IH]; simpl; [tauto|].
  destruct (p y); [split; discriminate|].
  destruct (findIndex p l) as [j|]; [|exact IH].
  split; [discriminate|]. intros E. apply IH in E. discriminate.
Qed.

Lemma findIndex_split (l : list A) (i : nat) :
  findIndex p l = Some i ->
  exists l1 x l2,
    l = l1 ++ x :: l2 /\ List.length l1 = i /\
    forallb (fun y => negb (p y)) l1 = true /\ p x = true /\
    splice1 i l = l1 ++ l2.
Proof.
  revert i. induction l as [|y l IH]; simpl; [discriminate|].
  intros i. destruct (p y) eqn:Ey.
  - intros E. injection E as <-. exists [], y, l. auto.
  - destruct (findIndex p l) as [j|]; [|discriminate].
    intros E. injection E as <-.
    destruct (IH j eq_refl) as [l1 [x [l2 [-> [Hl [H1 [Hx Hs]]]]]]].
    exists (y :: l1), x, l2. simpl. rewrite Ey, H1, Hs, Hl. auto.
Qed.

Lemma mutate_first_app (f : A -> A) (l1 l2 : list A) (x : A) :
  forallb (fun y => negb (p y)) l1 = true -> p x = true ->
  mutate_first p f (l1 ++ x :: l2) = l1 ++ f x :: l2.
Proof.
  intros H1 Hx. induction l1 as [|y l1 IH]; simpl.
  - now rewrite Hx.
  - simpl in H1. apply andb_true_iff in H1. destruct H1 as [Hy H1].
    apply negb_true_iff in Hy. rewrite Hy. f_equal. now apply IH.
Qed.

Lemma mutate_first_length (f : A -> A) (l : list A) :
  List.length (mutate_first p f l) = List.length l.
Proof.
  induction l as [|y l IH]; simpl; [reflexivity|].
  destruct (p y); simpl; now rewrite ?IH.
Qed.

End Arrays.

Lemma filter_all {A : Type} (l : list A) : filter (fun _ => true) l = l.
Proof. induction l as [|x l IH]; simpl; now rewrite ?IH. Qed.

Lemma filter_filter {A : Type} (p q : A -> bool) (l : list A) :
  filter q (filter p l) = filter (fun x => p x && q x) l.
Proof.
  induction l as [|x l IH]; simpl; [reflexivity|].
  destruct (p x); simpl; [destruct (q x)|]; now rewrite IH.
Qed.

(* ===================================================================== *)
(** ** Validation and the task entity                                     *)
(* ===================================================================== *)

Lemma validateTodo_ok (text : jsstring) :
  1 <= List.length (trim text) <= CONFIG.MAX_TODO_LENGTH ->
  Utils.validateTodo text = Ok (trim text).
Proof.
  intros [Hlo Hhi]. unfold Utils.validateTodo.
  destruct (trim text) as [|c r] eqn:E; [simpl in Hlo; lia|].
  destruct (CONFIG.MAX_TODO_LENGTH <? List.length (c :: r)) eqn:L; [|reflexivity].
  apply Nat.ltb_lt in L. lia.
Qed.

Lemma validateTodo_empty (text : jsstring) :
  Utils.validateTodo text = Throw EmptyInput <-> trim text = [].
Proof.
  unfold Utils.validateTodo. destruct (trim text) as [|c r]; [tauto|].
  destruct (CONFIG.MAX_TODO_LENGTH <? List.length (c :: r));
    split; discriminate.
Qed.

Lemma validateTodo_too_long (text : jsstring) :
  Utils.validateTodo text = Throw TooLong <->
  CONFIG.MAX_TODO_LENGTH < List.length (trim text).
Proof.
  unfold Utils.validateTodo. destruct (trim text) as [|c r].
  - simpl. split; [discriminate|]. unfold CONFIG.MAX_TODO_LENGTH. lia.
  - destruct (CONFIG.MAX_TODO_LENGTH <? List.length (c :: r)) eqn:L.
    + apply Nat.ltb_lt in L. tauto.
    + apply Nat.ltb_ge in L. split; [discriminate|lia].
Qed.

(** What validation returns is the trimmed input, within the bounds. *)
Lemma validateTodo_returns (text valid : jsstring) :
  Utils.validateTodo text = Ok valid ->
  valid = trim text /\ 1 <= List.length valid <= CONFIG.MAX_TODO_LENGTH.
Proof.
  unfold Utils.validateTodo. destruct (trim text) as [|c r]; [discriminate|].
  destruct (CONFIG.MAX_TODO_LENGTH <? List.length (c :: r)) eqn:L; [discriminate|].
  apply Nat.ltb_ge in L. intros E. injection E as <-.
  split; [reflexivity|]. split; [simpl; lia|exact L].
Qed.

Lemma generateId_nonempty (h : Host) : truthy (JStr (Utils.generateId h)) = true.
Proof. reflexivity. Qed.

(* ===================================================================== *)
(** ** addTodo                                                            *)
(* ===================================================================== *)

Lemma addTodo_accepts `{Runtime} (text valid : jsstring) (h : Host)
    (m : TodoManager.t) (w : World) :
  Utils.validateTodo text = Ok valid ->
  TodoManager.addTodo text h m w =
  (Ok (TodoItem.new valid None h),
   TodoManager.applyFilters
     (TodoManager.set_todos (TodoItem.new valid None h :: TodoManager.todos m) m),
   StorageService.saveTodos (TodoItem.new valid None h :: TodoManager.todos m) h w).
Proof. intros E. unfold TodoManager.addTodo. now rewrite E. Qed.

Lemma addTodo_refuses `{Runtime} (text : jsstring) (e : error) (h : Host)
    (m : TodoManager.t) (w : World) :
  Utils.validateTodo text = Throw e <->
  TodoManager.addTodo text h m w = (Throw e, m, w).
Proof.
  unfold TodoManager.addTodo. destruct (Utils.validateTodo text) as [valid|e'].
  - split; discriminate.
  - split; intros E; now injection E as ->.
Qed.

Lemma addTodo_outcome `{Runtime} (text : jsstring) (e : error) (h : Host)
    (m : TodoManager.t) (w : World) :
  outcome_of (TodoManager.addTodo text h m w) = Throw e <->
  Utils.validateTodo text = Throw e.
Proof.
  unfold TodoManager.addTodo, outcome_of.
  destruct (Utils.validateTodo text) as [valid|e']; simpl.
  - split; discriminate.
  - split; intros E; now injection E as ->.
Qed.

(** C1.  For every text whose trimmed length is between 1 and 100,
    [addTodo] succeeds and returns the task it created; that task's text
    is the trimmed input and its completed flag is [false]; the collection
    afterwards is that task followed by the former collection, unchanged
    and in its order; and it is this collection that is handed to
    storage. *)
Theorem addTodo_prepends `{Runtime} (text : jsstring) (h : Host)
    (m : TodoManager.t) (w : World) :
  1 <= List.length (trim text) <= 100 ->
  exists todo,
    outcome_of (TodoManager.addTodo text h m w) = Ok todo /\
    TodoItem.text todo = trim text /\
    TodoItem.completed todo = JBool false /\
    TodoManager.todos (manager_of (TodoManager.addTodo text h m w))
      = todo :: TodoManager.todos m /\
    world_of (TodoManager.addTodo text h m w)
      = StorageService.saveTodos (todo :: TodoManager.todos m) h w.
Proof.
  intros Hlen. apply validateTodo_ok in Hlen.
  rewrite (addTodo_accepts text (trim text) h m w Hlen).
  exists (TodoItem.new (trim text) None h).
  unfold outcome_of, manager_of, world_of. simpl.
  repeat split. apply trim_idempotent.
Qed.

Lemma addTodo_prepends_witness :
  exists todo,
    outcome_of (TodoManager.addTodo (H := sample_runtime)
                  (js "  Call mom ") host2 (fst two_tasks) (snd two_tasks))
      = Ok todo /\
    TodoItem.text todo = trim (js "  Call mom ") /\
    TodoItem.completed todo = JBool false /\
    TodoManager.todos
      (manager_of (TodoManager.addTodo (H := sample_runtime)
                     (js "  Call mom ") host2 (fst two_tasks) (snd two_tasks)))
      = todo :: TodoManager.todos (fst two_tasks) /\
    world_of (TodoManager.addTodo (H := sample_runtime)
                (js "  Call mom ") host2 (fst two_tasks) (snd two_tasks))
      = StorageService.saveTodos (H := sample_runtime)
          (todo :: TodoManager.todos (fst two_tasks)) host2 (snd two_tasks).
Proof.
  apply (addTodo_prepends (H := sample_runtime)).
  vm_compute. split; repeat constructor.
Defined.

(** C3.  [addTodo] fails with EmptyInput on every input whose trimmed
    text is empty; it fails with TooLong exactly when the trimmed length
    exceeds 100; and whenever it fails, the store and the storage are
    what they were. *)
Theorem addTodo_rejects `{Runtime} (text : jsstring) (h : Host)
    (m : TodoManager.t) (w : World) :
  (trim text = [] ->
   TodoManager.addTodo text h m w = (Throw EmptyInput, m, w)) /\
  (outcome_of (TodoManager.addTodo text h m w) = Throw TooLong <->
   100 < List.length (trim text)) /\
  (forall e, outcome_of (TodoManager.addTodo text h m w) = Throw e ->
             TodoManager.addTodo text h m w = (Throw e, m, w)).
Proof.
  split; [|split].
  - intros E. apply addTodo_refuses. now apply validateTodo_empty.
  - rewrite addTodo_outcome. apply validateTodo_too_long.
  - intros e E. apply addTodo_refuses. now apply addTodo_outcome in E.
Qed.

Lemma addTodo_rejects_witness :
  TodoManager.addTodo (H := sample_runtime) [] host2 (fst two_tasks) (snd two_tasks)
    = (Throw EmptyInput, fst two_tasks, snd two_tasks) /\
  TodoManager.addTodo (H := sample_runtime) (js "   ") host2
      (fst two_tasks) (snd two_tasks)
    = (Throw EmptyInput, fst two_tasks, snd two_tasks) /\
  TodoManager.addTodo (H := sample_runtime) (repeat_char 97 101) host2
      (fst two_tasks) (snd two_tasks)
    = (Throw TooLong, fst two_tasks, snd two_tasks) /\
  outcome_of (TodoManager.addTodo (H := sample_runtime) (repeat_char 97 100) host2
                (fst two_tasks) (snd two_tasks))
    <> Throw TooLong.
Proof.
  split; [|split; [|split]].
  - apply (addTodo_rejects (H := sample_runtime)). reflexivity.
  - apply (addTodo_rejects (H := sample_runtime)). reflexivity.
  - apply (addTodo_rejects (H := sample_runtime)).
    apply (addTodo_rejects (H := sample_runtime)).
    vm_compute. repeat constructor.
  - intros E.
    pose proof (proj1 (proj1 (proj2 (addTodo_rejects (H := sample_runtime)
                  (repeat_char 97 100) host2 (fst two_tasks) (snd two_tasks)))) E)
      as L.
    vm_compute in L. lia.
Defined.

(* ===================================================================== *)
(** ** The derived view                                                   *)
(* ===================================================================== *)

Lemma filter_true_on {A : Type} (p : A -> bool) (l : list A) :
  (forall x, p x = true) -> filter p l = l.
Proof.
  intros Hp. induction l as [|x l IH]; simpl; [reflexivity|].
  now rewrite Hp, IH.
Qed.

(** The view [applyFilters] computes is the specification's: skipping the
    search when the term is empty filters nothing out, since every text
    includes the empty string. *)
Lemma applyFilters_view `{Runtime} (m : TodoManager.t) (st : status) :
  TodoManager.currentFilter m = status_name st ->
  TodoManager.filteredTodos (TodoManager.applyFilters m)
  = derived_view (TodoManager.todos m) (TodoManager.currentSearch m) st.
Proof.
  intros Est. unfold TodoManager.applyFilters, derived_view. simpl.
  rewrite Est.
  assert (Es : match TodoManager.currentSearch m with
               | [] => TodoManager.todos m
               | _ :: _ =>
                   filter (fun todo =>
                             includes (toLowerCase (TodoItem.text todo))
                                      (TodoManager.currentSearch m))
                          (TodoManager.todos m)
               end
               = filter (matches_search (TodoManager.currentSearch m))
                        (TodoManager.todos m)).
  { destruct (TodoManager.currentSearch m) as [|c r]; [|reflexivity].
    symmetry. apply filter_true_on. intros x. apply includes_empty. }
  rewrite Es. destruct st; simpl.
  - symmetry. apply filter_all.
  - reflexivity.
  - reflexivity.
Qed.

Lemma applyFilters_frame `{Runtime} (m : TodoManager.t) :
  TodoManager.todos (TodoManager.applyFilters m) = TodoManager.todos m /\
  TodoManager.currentFilter (TodoManager.applyFilters m)
    = TodoManager.currentFilter m /\
  TodoManager.currentSearch (TodoManager.applyFilters m)
    = TodoManager.currentSearch m /\
  TodoManager.editingTodoId (TodoManager.applyFilters m)
    = TodoManager.editingTodoId m.
Proof. repeat split. Qed.

Lemma applyFilters_current `{Runtime} (m : TodoManager.t) :
  view_current (TodoManager.applyFilters m).
Proof. destruct m. reflexivity. Qed.

Lemma startEditing_current `{Runtime} (id : jsstring) (m : TodoManager.t) :
  view_current m -> view_current (TodoManager.startEditing id m).
Proof.
  unfold view_current. destruct m as [l v f s e]. intros E.
  unfold TodoManager.applyFilters in *. simpl in *.
  injection E as E. unfold TodoManager.startEditing. simpl. now rewrite E.
Qed.

Lemma stopEditing_current `{Runtime} (m : TodoManager.t) :
  view_current m -> view_current (TodoManager.stopEditing m).
Proof.
  unfold view_current. destruct m as [l v f s e]. intros E.
  unfold TodoManager.applyFilters in *. simpl in *.
  injection E as E. unfold TodoManager.stopEditing. simpl. now rewrite E.
Qed.

Lemma run_current `{Runtime} (c : call) (s : state) :
  view_current (fst s) -> view_current (fst (run c s)).
Proof.
  destruct s as [m w]. simpl. intros Hm. destruct c; simpl.
  - unfold TodoManager.addTodo.
    destruct (Utils.validateTodo text); simpl;
      [apply applyFilters_current|exact Hm].
  - unfold TodoManager.updateTodo.
    destruct (find_first _ _); simpl; [|exact Hm].
    destruct (TodoItem.updateText _ _ _); simpl;
      [apply applyFilters_current|exact Hm].
  - unfold TodoManager.toggleTodo.
    destruct (find_first _ _); simpl; [apply applyFilters_current|exact Hm].
  - unfold TodoManager.deleteTodo.
    destruct (findIndex _ _); simpl; [apply applyFilters_current|exact Hm].
  - apply applyFilters_current.
  - apply applyFilters_current.
  - now apply startEditing_current.
  - now apply stopEditing_current.
Qed.

(** Every operation returns with the view recomputed. *)
Lemma reachable_current `{Runtime} (s : state) :
  reachable s -> view_current (fst s).
Proof.
  induction 1 as [hosts w|w|c s _ IH].
  - unfold TodoManager.new, TodoManager.loadTodos.
    destruct (StorageService.getTodos hosts w). simpl.
    apply applyFilters_current.
  - reflexivity.
  - now apply run_current.
Qed.

Lemma reachable_run_all `{Runtime} (cs : list call) (s : state) :
  reachable s -> reachable (run_all cs s).
Proof.
  revert s. induction cs as [|c cs IH]; intros s Hs; simpl; [exact Hs|].
  apply IH. now constructor.
Qed.

(** C2.  In every state of the store, hence on return from whichever
    operation led to it, the visible view is the collection filtered by
    the search term (the lower-cased text includes the term) and then by
    status, where pending keeps the tasks that are not completed,
    completed keeps those that are, and all keeps everything; the two
    filters compose as a conjunction; and [setSearch] stores the term
    lower-cased and trimmed and returns with the view of that term. *)
Theorem derived_view_correct `{Runtime} (s : state) (st : status) :
  reachable s ->
  TodoManager.currentFilter (fst s) = status_name st ->
  TodoManager.filteredTodos (fst s)
    = derived_view (TodoManager.todos (fst s))
                   (TodoManager.currentSearch (fst s)) st /\
  derived_view (TodoManager.todos (fst s)) (TodoManager.currentSearch (fst s)) st
    = filter (fun todo =>
                matches_search (TodoManager.currentSearch (fst s)) todo
                && keeps_status st todo)
             (TodoManager.todos (fst s)) /\
  derived_view (TodoManager.todos (fst s)) (TodoManager.currentSearch (fst s)) All
    = filter (matches_search (TodoManager.currentSearch (fst s)))
             (TodoManager.todos (fst s)) /\
  forall term,
    TodoManager.currentSearch (TodoManager.setSearch term (fst s))
      = normalize term /\
    TodoManager.filteredTodos (TodoManager.setSearch term (fst s))
      = derived_view (TodoManager.todos (fst s)) (normalize term) st.
Proof.
  intros Hs Est. split; [|split; [|split]].
  - transitivity (TodoManager.filteredTodos (TodoManager.applyFilters (fst s))).
    + f_equal. symmetry. now apply reachable_current.
    + now apply applyFilters_view.
  - apply filter_filter.
  - apply filter_all.
  - intros term. split; [reflexivity|].
    unfold TodoManager.setSearch.
    exact (applyFilters_view
             {| TodoManager.todos := TodoManager.todos (fst s);
                TodoManager.filteredTodos := TodoManager.filteredTodos (fst s);
                TodoManager.currentFilter := TodoManager.currentFilter (fst s);
                TodoManager.currentSearch := trim (toLowerCase term);
                TodoManager.editingTodoId := TodoManager.editingTodoId (fst s) |}
             st Est).
Qed.

Lemma searched_reachable : reachable (H := sample_runtime) searched.
Proof.
  apply reachable_run. unfold two_tasks. apply reachable_run_all.
  apply reachable_new.
Qed.

Lemma derived_view_correct_witness :
  TodoManager.filteredTodos (fst searched)
    = derived_view (H := sample_runtime) (TodoManager.todos (fst searched))
        (TodoManager.currentSearch (fst searched)) All /\
  derived_view (H := sample_runtime) (TodoManager.todos (fst searched))
      (TodoManager.currentSearch (fst searched)) All
    = filter (fun todo =>
                matches_search (H := sample_runtime)
                  (TodoManager.currentSearch (fst searched)) todo
                && keeps_status All todo)
             (TodoManager.todos (fst searched)) /\
  derived_view (H := sample_runtime) (TodoManager.todos (fst searched))
      (TodoManager.currentSearch (fst searched)) All
    = filter (matches_search (H := sample_runtime)
                (TodoManager.currentSearch (fst searched)))
             (TodoManager.todos (fst searched)) /\
  forall term,
    TodoManager.currentSearch
      (TodoManager.setSearch (H := sample_runtime) term (fst searched))
      = normalize (H := sample_runtime) term /\
    TodoManager.filteredTodos
      (TodoManager.setSearch (H := sample_runtime) term (fst searched))
      = derived_view (H := sample_runtime) (TodoManager.todos (fst searched))
          (normalize (H := sample_runtime) term) All.
Proof.
  apply (derived_view_correct (H := sample_runtime) searched All).
  - exact searched_reachable.
  - reflexivity.
Defined.

(** The specification's scenario: with "Buy milk" and "Walk dog" in the
    collection, a search for "milk" shows the "Buy milk" task alone, and
    the filter "completed" shows nothing while the total stays 2. *)
Example scenario_search_and_filter :
  map TodoItem.text (TodoManager.filteredTodos (fst searched)) = [js "Buy milk"] /\
  TodoManager.filteredTodos
    (TodoManager.setFilter (H := sample_runtime) (js "completed") (fst two_tasks))
    = [] /\
  TodoManager.total
    (TodoManager.getStats
       (TodoManager.setFilter (H := sample_runtime) (js "completed") (fst two_tasks)))
    = 2%Z.
Proof. vm_compute. repeat split. Qed.

(* ===================================================================== *)
(** ** Loading from storage                                               *)
(* ===================================================================== *)

Lemma fromJSON_decodable (item : json) (h : Host) :
  decodable_record item = true <-> exists todo, TodoItem.fromJSON item h = inr todo.
Proof.
  unfold decodable_record, TodoItem.fromJSON.
  destruct item as [| b | x | s | items | fields]; simpl;
    try (split; [discriminate|intros [todo E]; discriminate]).
  destruct (lookup_field (js "text") fields) as [[| b | x | s | items | fs]|];
    try (split; [discriminate|intros [todo E]; discriminate]).
  split; [intros _; eexists; reflexivity|reflexivity].
Qed.

Lemma fromJSON_undecodable (item : json) (h : Host) :
  decodable_record item = false -> TodoItem.fromJSON item h = inl TypeError.
Proof.
  intros D. destruct (TodoItem.fromJSON item h) as [f|todo] eqn:E.
  - now destruct f; [revert E; unfold TodoItem.fromJSON;
                     destruct (get item (js "text")) as [?|[[]|]];
                     destruct (get item (js "id")); discriminate|].
  - assert (decodable_record item = true) by (apply (fromJSON_decodable item h); eauto).
    congruence.
Qed.

Lemma map_fromJSON_fails (items : list json) (hosts : nat -> Host) (i : nat) :
  forallb decodable_record items = false ->
  StorageService.map_fromJSON items hosts i = inl TypeError.
Proof.
  revert i. induction items as [|item items IH]; intros i; simpl; [discriminate|].
  destruct (decodable_record item) eqn:D; simpl.
  - intros F. apply (fromJSON_decodable item (hosts i)) in D.
    destruct D as [todo ->]. now rewrite IH.
  - intros _. now rewrite fromJSON_undecodable.
Qed.

Lemma map_fromJSON_succeeds (items : list json) (hosts : nat -> Host) (i : nat) :
  forallb decodable_record items = true ->
  exists todos,
    StorageService.map_fromJSON items hosts i = inr todos /\
    List.length todos = List.length items.
Proof.
  revert i. induction items as [|item items IH]; intros i; simpl.
  - intros _. now exists [].
  - intros F. apply andb_true_iff in F. destruct F as [D F].
    apply (fromJSON_decodable item (hosts i)) in D. destruct D as [todo ->].
    destruct (IH (S i) F) as [todos [-> L]].
    exists (todo :: todos). simpl. now rewrite L.
Qed.

Lemma decode_unparseable `{Runtime} (data : jsstring) (hosts : nat -> Host) :
  parseable data = false ->
  exists f, StorageService.decode data hosts = inl f.
Proof.
  unfold parseable, StorageService.decode.
  destruct (JSON_parse data) as [[| b | x | s | items | fields]|];
    try (intros _; eexists; reflexivity).
  simpl. intros F. exists TypeError. now apply map_fromJSON_fails.
Qed.

(** A blob of the expected shape loads with no warning, one task for each
    stored record. *)
Lemma getTodos_loads `{Runtime} (hosts : nat -> Host) (w : World) (data : jsstring) :
  stored w = Some data -> data <> [] -> parseable data = true ->
  exists todos items,
    JSON_parse data = Some (JArr items) /\
    StorageService.getTodos hosts w = (todos, w) /\
    List.length todos = List.length items.
Proof.
  intros S Hne P. unfold parseable in P.
  unfold StorageService.getTodos, StorageService.decode. rewrite S.
  destruct data as [|c r]; [contradiction|].
  destruct (JSON_parse (c :: r)) as [[| b | x | s | items | fields]|];
    try discriminate.
  simpl in P. destruct (map_fromJSON_succeeds items hosts 0 P) as [todos [E L]].
  exists todos, items. rewrite E. auto.
Qed.

(** C4, as amended.  [getTodos] returns the empty list, and writes
    nothing to the console, when nothing is stored under the key or when
    the stored text is the empty string.  When the stored text is not
    empty and is not JSON, or is JSON other than an array of objects that
    each hold a string [text], [getTodos] still returns (the fault is
    caught): it logs the fault with one [console.error], shows exactly one
    toast, and returns the empty list; the stored text is left as it is. *)
Theorem getTodos_tolerates `{Runtime} (hosts : nat -> Host) (w : World) :
  (stored w = None -> StorageService.getTodos hosts w = ([], w)) /\
  (stored w = Some [] -> StorageService.getTodos hosts w = ([], w)) /\
  (forall data,
     stored w = Some data -> data <> [] -> parseable data = false ->
     exists f,
       StorageService.getTodos hosts w =
       ([], {| stored := stored w;
               console := console w ++
                 [ ConsoleError "Error loading todos from storage:" (Some f);
                   Toast "Erro ao carregar as tarefas. Iniciando com lista vazia."
                         "error" ] |})).
Proof.
  unfold StorageService.getTodos. split; [|split].
  - now intros ->.
  - now intros ->.
  - intros data S Hne P. rewrite S.
    destruct data as [|c r]; [contradiction|].
    destruct (decode_unparseable (c :: r) hosts P) as [f ->].
    exists f. unfold StorageService.load_failed. now rewrite S.
Qed.

Lemma getTodos_tolerates_witness :
  exists f,
    StorageService.getTodos (H := sample_runtime) (fun _ => host0)
      (world_with (js "[null]")) =
    ([], {| stored := Some (js "[null]");
            console :=
              [ ConsoleError "Error loading todos from storage:" (Some f);
                Toast "Erro ao carregar as tarefas. Iniciando com lista vazia."
                      "error" ] |}).
Proof.
  apply (proj2 (proj2 (getTodos_tolerates (H := sample_runtime)
                         (fun _ => host0) (world_with (js "[null]"))))
           (js "[null]")).
  - reflexivity.
  - discriminate.
  - reflexivity.
Defined.

(** C4 as worded fails on the empty string: it is stored, it is not
    JSON, and [getTodos] returns on its [!data] guard before the [try]
    can fail, so nothing is logged and no toast is shown. *)
Lemma empty_blob_is_silent : ~ unparseable_blob_warns_once (H := sample_runtime).
Proof.
  intros C.
  destruct (C (fun _ => host0) (world_with []) [] eq_refl eq_refl)
    as [e1 [e2 E]].
  discriminate E.
Qed.

(* ===================================================================== *)
(** ** Serialization round trip                                           *)
(* ===================================================================== *)

Lemma or_else_keeps (v d : json) : truthy v = true -> or_else (Some v) d = v.
Proof. intros T. simpl. now rewrite T. Qed.

Lemma or_else_flag (v : json) :
  truthy v || is_boolean v = true -> or_else (Some v) (JBool false) = v.
Proof.
  simpl. destruct (truthy v) eqn:T; [reflexivity|].
  destruct v as [| [|] | x | s | items | fields]; simpl in *;
    try discriminate; reflexivity.
Qed.

Lemma fromJSON_toJSON (todo : TodoItem.t) (h : Host) :
  survives_storage todo = true ->
  TodoItem.fromJSON (TodoItem.toJSON todo) h = inr todo.
Proof.
  unfold survives_storage. rewrite !andb_true_iff.
  intros [[[[Hid Htext] Hflag] Hc] Hu].
  apply str_eqb_eq in Htext.
  destruct todo as [i t c ca ua]. simpl in *.
  unfold TodoItem.fromJSON, TodoItem.toJSON, TodoItem.new.
  cbn -[trim truthy or_else].
  now rewrite Htext, (or_else_flag c Hflag), !or_else_keeps.
Qed.

Lemma map_fromJSON_toJSON (C : list TodoItem.t) (hosts : nat -> Host) (i : nat) :
  forallb survives_storage C = true ->
  StorageService.map_fromJSON (map TodoItem.toJSON C) hosts i = inr C.
Proof.
  revert i. induction C as [|todo C IH]; intros i;
    cbn [map StorageService.map_fromJSON forallb]; [reflexivity|].
  intros F. apply andb_true_iff in F. destruct F as [S F].
  now rewrite (fromJSON_toJSON todo (hosts i) S), (IH (Datatypes.S i) F).
Qed.

Lemma nonempty_string_truthy (v : json) :
  nonempty_string v = true -> truthy v = true.
Proof. destruct v as [| b | x | [|c r] | items | fields]; simpl; congruence. Qed.

Lemma valid_task_survives (todo : TodoItem.t) :
  valid_task todo = true -> survives_storage todo = true.
Proof.
  unfold valid_task, survives_storage. rewrite !andb_true_iff.
  intros [[[[Hid Htext] Hflag] Hc] Hu].
  repeat split; auto using nonempty_string_truthy.
  - destruct (Utils.validateTodo (TodoItem.text todo)) as [valid|e] eqn:V;
      [|discriminate].
    apply validateTodo_returns in V. destruct V as [-> _].
    apply str_eqb_eq in Htext. rewrite <- Htext at 1. rewrite trim_idempotent.
    now apply str_eqb_eq.
  - rewrite Hflag. apply orb_true_r.
Qed.

(** C5.  For every collection of tasks, each with a non-empty string id,
    a text that is trimmed and valid, a boolean completed flag and both
    timestamps, decoding the encoded collection gives the same tasks,
    equal in all five fields and in the same order, whatever the host
    readings during the decoding. *)
Theorem storage_round_trip (C : list TodoItem.t) (hosts : nat -> Host) :
  forallb valid_task C = true ->
  deserialize (serialize C) hosts = inr C.
Proof.
  intros V. apply map_fromJSON_toJSON.
  rewrite forallb_forall in *. intros todo Hin.
  apply valid_task_survives. now apply V.
Qed.

Lemma storage_round_trip_witness :
  deserialize (serialize (TodoManager.todos (fst two_tasks))) (fun _ => host2)
  = inr (TodoManager.todos (fst two_tasks)).
Proof.
  apply storage_round_trip. reflexivity.
Defined.

(** The id that the round trip needs is the one every task has: the
    constructor replaces a falsy id by a generated one, which starts with
    "todo_", and no method assigns the id afterwards. *)
Lemma new_id_truthy (text : jsstring) (id0 : option json) (h : Host) :
  truthy (TodoItem.id (TodoItem.new text id0 h)) = true.
Proof.
  unfold TodoItem.new. simpl. destruct id0 as [v|]; simpl; [|reflexivity].
  destruct (truthy v) eqn:T; [exact T|reflexivity].
Qed.

Lemma fromJSON_id_truthy (data : json) (h : Host) (todo : TodoItem.t) :
  TodoItem.fromJSON data h = inr todo -> truthy (TodoItem.id todo) = true.
Proof.
  unfold TodoItem.fromJSON.
  destruct (get data (js "text")) as [f|[[| b | x | s | items | fields]|]];
    try discriminate.
  destruct (get data (js "id")) as [f|id0]; [discriminate|].
  intros E. injection E as <-. apply (new_id_truthy s id0 h).
Qed.

(** Through the JSON text: what [saveTodos] wrote, [getTodos] reads back,
    on a runtime whose [JSON.parse] undoes its [JSON.stringify] there. *)
Lemma save_then_load `{Runtime} (C : list TodoItem.t) (h : Host)
    (hosts : nat -> Host) (w : World) :
  forallb survives_storage C = true ->
  setItem_ok h = true ->
  JSON_stringify (JArr (serialize C)) <> [] ->
  JSON_parse (JSON_stringify (JArr (serialize C))) = Some (JArr (serialize C)) ->
  StorageService.getTodos hosts (StorageService.saveTodos C h w)
  = (C, StorageService.saveTodos C h w).
Proof.
  intros S Hok Hne P. unfold StorageService.saveTodos. rewrite Hok.
  unfold StorageService.getTodos. simpl. fold (serialize C).
  destruct (JSON_stringify (JArr (serialize C))) as [|c r] eqn:E;
    [contradiction|].
  unfold StorageService.decode. rewrite P.
  unfold serialize. now rewrite map_fromJSON_toJSON.
Qed.

(* ===================================================================== *)
(** ** Statistics                                                         *)
(* ===================================================================== *)

Lemma filter_partition_length {A : Type} (p : A -> bool) (l : list A) :
  List.length (filter p l) + List.length (filter (fun x => negb (p x)) l)
  = List.length l.
Proof.
  induction l as [|x l IH]; simpl; [reflexivity|].
  destruct (p x); simpl; lia.
Qed.

Lemma getStats_counts (m : TodoManager.t) :
  TodoManager.getStats m = count_stats (TodoManager.todos m).
Proof.
  unfold TodoManager.getStats, count_stats. f_equal.
  pose proof (filter_partition_length
                (fun todo => truthy (TodoItem.completed todo))
                (TodoManager.todos m)).
  lia.
Qed.

Lemma run_view_todos `{Runtime} (m : TodoManager.t) (v : view_call) :
  TodoManager.todos (run_view m v) = TodoManager.todos m.
Proof. destruct v; reflexivity. Qed.

Lemma run_views_todos `{Runtime} (vs : list view_call) (m : TodoManager.t) :
  TodoManager.todos (fold_left run_view vs m) = TodoManager.todos m.
Proof.
  revert m. induction vs as [|v vs IH]; intros m; simpl; [reflexivity|].
  now rewrite IH, run_view_todos.
Qed.

(** C6.  In every state of the store the counters satisfy
    total = pending + completed; each is a count over the backing
    collection (all tasks, those not completed, those completed), so two
    stores with the same collection have the same counters whatever their
    views; and no sequence of [setSearch] and [setFilter] calls changes
    them. *)
Theorem stats_invariant `{Runtime} (m : TodoManager.t) :
  (TodoManager.total (TodoManager.getStats m)
   = TodoManager.pending (TodoManager.getStats m)
     + TodoManager.completed (TodoManager.getStats m))%Z /\
  TodoManager.getStats m = count_stats (TodoManager.todos m) /\
  (forall m', TodoManager.todos m' = TodoManager.todos m ->
              TodoManager.getStats m' = TodoManager.getStats m) /\
  (forall vs : list view_call,
     TodoManager.getStats (fold_left run_view vs m) = TodoManager.getStats m).
Proof.
  repeat split.
  - simpl. lia.
  - apply getStats_counts.
  - intros m' E. unfold TodoManager.getStats. now rewrite E.
  - intros vs. unfold TodoManager.getStats. now rewrite run_views_todos.
Qed.

Lemma stats_invariant_witness :
  TodoManager.getStats
    (fold_left (run_view (H := sample_runtime))
       [ViewSearch (js "milk"); ViewFilter (js "completed"); ViewSearch (js "zzz")]
       (fst two_tasks))
  = TodoManager.getStats (fst two_tasks).
Proof.
  apply (stats_invariant (H := sample_runtime) (fst two_tasks)).
Defined.

(* ===================================================================== *)
(** ** The editing slot                                                   *)
(* ===================================================================== *)

Lemma updateTodo_editing `{Runtime} (id newText : jsstring) (h : Host)
    (m : TodoManager.t) (w : World) :
  TodoManager.editingTodoId (manager_of (TodoManager.updateTodo id newText h m w))
  = TodoManager.editingTodoId m.
Proof.
  unfold TodoManager.updateTodo, manager_of.
  destruct (find_first _ _); [|reflexivity].
  destruct (TodoItem.updateText _ _ _); reflexivity.
Qed.

(** Only [startEditing] and [stopEditing] write the slot. *)
Lemma run_editing `{Runtime} (c : call) (s : state) :
  TodoManager.editingTodoId (fst (run c s)) =
  match c with
  | StartEditing id => Some id
  | StopEditing => None
  | _ => TodoManager.editingTodoId (fst s)
  end.
Proof.
  destruct s as [m w]. destruct c; simpl; try reflexivity.
  - unfold TodoManager.addTodo. now destruct (Utils.validateTodo text).
  - unfold TodoManager.updateTodo. destruct (find_first _ _); [|reflexivity].
    now destruct (TodoItem.updateText _ _ _).
  - unfold TodoManager.toggleTodo. now destruct (find_first _ _).
  - unfold TodoManager.deleteTodo. now destruct (findIndex _ _).
Qed.

(** C7 as worded fails: the update of the task being edited succeeds and
    the slot still holds its id. *)
Lemma update_leaves_editing : ~ update_clears_editing (H := sample_runtime).
Proof.
  intros C.
  specialize (C id0 (js "Walk the dog") host2 editing_walk_dog (snd two_tasks)
                eq_refl eq_refl).
  vm_compute in C. discriminate C.
Qed.

(* ===================================================================== *)
(** ** toggleTodo                                                         *)
(* ===================================================================== *)

Lemma toggleComplete_has_id (id : jsstring) (todo : TodoItem.t) (h : Host) :
  TodoManager.has_id id (TodoItem.toggleComplete todo h)
  = TodoManager.has_id id todo.
Proof. reflexivity. Qed.

(** [toggleTodo] on an id that is present: the first task under that id
    is toggled where it stands. *)
Lemma toggleTodo_found `{Runtime} (id : jsstring) (h : Host)
    (m : TodoManager.t) (w : World) (todo : TodoItem.t) :
  find_first (TodoManager.has_id id) (TodoManager.todos m) = Some todo ->
  exists l1 l2,
    TodoManager.todos m = l1 ++ todo :: l2 /\
    forallb (fun y => negb (TodoManager.has_id id y)) l1 = true /\
    TodoManager.has_id id todo = true /\
    TodoManager.toggleTodo id h m w =
    (Ok tt,
     TodoManager.applyFilters
       (TodoManager.set_todos (l1 ++ TodoItem.toggleComplete todo h :: l2) m),
     StorageService.saveTodos (l1 ++ TodoItem.toggleComplete todo h :: l2) h w).
Proof.
  intros F. destruct (find_first_split _ _ _ F) as [l1 [l2 [E [H1 Hx]]]].
  exists l1, l2. repeat split; trivial.
  unfold TodoManager.toggleTodo, TodoManager.saveTodos. rewrite F.
  rewrite E, (mutate_first_app _ (fun t => TodoItem.toggleComplete t h) l1 l2 todo H1 Hx).
  reflexivity.
Qed.

Lemma toggleTodo_finds_toggled `{Runtime} (id : jsstring) (h : Host)
    (m : TodoManager.t) (w : World) (todo : TodoItem.t) :
  find_first (TodoManager.has_id id) (TodoManager.todos m) = Some todo ->
  find_first (TodoManager.has_id id)
    (TodoManager.todos (manager_of (TodoManager.toggleTodo id h m w)))
  = Some (TodoItem.toggleComplete todo h).
Proof.
  intros F. destruct (toggleTodo_found id h m w todo F) as [l1 [l2 [_ [H1 [Hx ->]]]]].
  unfold manager_of. simpl. apply find_first_app; trivial.
Qed.

(** C8, as amended.  For a task that is present, after two toggles of its
    id the completed flag is the truth value it started with, hence the
    original flag when that was a boolean; and each toggle sets updatedAt
    to the clock reading it took, so updatedAt has strictly advanced at a
    toggle when that reading is later than the value it replaces. *)
Theorem toggle_twice `{Runtime} (id : jsstring) (h1 h2 : Host)
    (m : TodoManager.t) (w : World) (todo : TodoItem.t) :
  find_first (TodoManager.has_id id) (TodoManager.todos m) = Some todo ->
  let r1 := TodoManager.toggleTodo id h1 m w in
  let r2 := TodoManager.toggleTodo id h2 (manager_of r1) (world_of r1) in
  exists todo1 todo2,
    find_first (TodoManager.has_id id) (TodoManager.todos (manager_of r1))
      = Some todo1 /\
    find_first (TodoManager.has_id id) (TodoManager.todos (manager_of r2))
      = Some todo2 /\
    TodoItem.completed todo2 = JBool (truthy (TodoItem.completed todo)) /\
    (is_boolean (TodoItem.completed todo) = true ->
     TodoItem.completed todo2 = TodoItem.completed todo) /\
    TodoItem.updatedAt todo1 = JStr (iso h1 0) /\
    TodoItem.updatedAt todo2 = JStr (iso h2 0) /\
    (earlier (TodoItem.updatedAt todo) (JStr (iso h1 0)) = true ->
     earlier (TodoItem.updatedAt todo) (TodoItem.updatedAt todo1) = true) /\
    (str_ltb (iso h1 0) (iso h2 0) = true ->
     earlier (TodoItem.updatedAt todo1) (TodoItem.updatedAt todo2) = true).
Proof.
  intros F r1 r2.
  pose proof (toggleTodo_finds_toggled id h1 m w todo F) as F1.
  pose proof (toggleTodo_finds_toggled id h2 (manager_of r1) (world_of r1) _ F1)
    as F2.
  exists (TodoItem.toggleComplete todo h1),
         (TodoItem.toggleComplete (TodoItem.toggleComplete todo h1) h2).
  split; [exact F1|]. split; [exact F2|]. simpl.
  rewrite negb_involutive. repeat split; trivial.
  destruct (TodoItem.completed todo); simpl; try discriminate. reflexivity.
Qed.

Lemma toggle_twice_witness :
  let r1 := TodoManager.toggleTodo (H := sample_runtime) id0 host1
              (fst two_tasks) (snd two_tasks) in
  let r2 := TodoManager.toggleTodo (H := sample_runtime) id0 host2
              (manager_of r1) (world_of r1) in
  exists todo1 todo2,
    find_first (TodoManager.has_id id0) (TodoManager.todos (manager_of r1))
      = Some todo1 /\
    find_first (TodoManager.has_id id0) (TodoManager.todos (manager_of r2))
      = Some todo2 /\
    TodoItem.completed todo2 = JBool false /\
    earlier (JStr (iso host0 1)) (TodoItem.updatedAt todo1) = true /\
    earlier (TodoItem.updatedAt todo1) (TodoItem.updatedAt todo2) = true.
Proof.
  destruct (toggle_twice (H := sample_runtime) id0 host1 host2
              (fst two_tasks) (snd two_tasks)
              (TodoItem.new (js "Walk dog") None host0) eq_refl)
    as [todo1 [todo2 [F1 [F2 [C2 [_ [_ [_ [A1 A2]]]]]]]]].
  exists todo1, todo2. repeat split; trivial.
  - apply A1. reflexivity.
  - apply A2. reflexivity.
Defined.

(** C8 as worded fails when the two toggles read the same clock value, as
    two calls within one millisecond do: the second leaves updatedAt equal
    to what the first set. *)
Lemma toggles_in_one_millisecond : ~ toggle_twice_advances (H := sample_runtime).
Proof.
  intros C.
  destruct (C id0 host1 host1 (fst two_tasks) (snd two_tasks)
              (TodoItem.new (js "Walk dog") None host0) eq_refl)
    as [todo1 [todo2 [F1 [F2 [_ [_ A]]]]]].
  vm_compute in F1. vm_compute in F2.
  injection F1 as <-. injection F2 as <-.
  vm_compute in A. discriminate A.
Qed.

(** C10.  A successful [toggleTodo id] changes, in the first task under
    that id, the completed flag and updatedAt only: the task keeps its
    id, text and createdAt; the tasks before and after it are the same
    tasks in the same places, so order and length are kept; and the search
    term, the status filter and the editing slot are what they were. *)
Theorem toggleTodo_frame `{Runtime} (id : jsstring) (h : Host)
    (m : TodoManager.t) (w : World) (todo : TodoItem.t) :
  find_first (TodoManager.has_id id) (TodoManager.todos m) = Some todo ->
  let r := TodoManager.toggleTodo id h m w in
  exists l1 l2 todo',
    outcome_of r = Ok tt /\
    TodoManager.todos m = l1 ++ todo :: l2 /\
    TodoManager.todos (manager_of r) = l1 ++ todo' :: l2 /\
    TodoItem.id todo' = TodoItem.id todo /\
    TodoItem.text todo' = TodoItem.text todo /\
    TodoItem.createdAt todo' = TodoItem.createdAt todo /\
    TodoItem.completed todo' = JBool (negb (truthy (TodoItem.completed todo))) /\
    TodoItem.updatedAt todo' = JStr (iso h 0) /\
    List.length (TodoManager.todos (manager_of r))
      = List.length (TodoManager.todos m) /\
    TodoManager.currentSearch (manager_of r) = TodoManager.currentSearch m /\
    TodoManager.currentFilter (manager_of r) = TodoManager.currentFilter m /\
    TodoManager.editingTodoId (manager_of r) = TodoManager.editingTodoId m.
Proof.
  intros F r. subst r.
  destruct (toggleTodo_found id h m w todo F) as [l1 [l2 [E [_ [_ ->]]]]].
  exists l1, l2, (TodoItem.toggleComplete todo h).
  unfold outcome_of, manager_of. simpl. rewrite E.
  repeat split. rewrite !length_app. reflexivity.
Qed.

Lemma toggleTodo_frame_witness :
  let r := TodoManager.toggleTodo (H := sample_runtime) id0 host2
             (fst searched) (snd searched) in
  exists l1 l2 todo',
    outcome_of r = Ok tt /\
    TodoManager.todos (fst searched)
      = l1 ++ TodoItem.new (js "Walk dog") None host0 :: l2 /\
    TodoManager.todos (manager_of r) = l1 ++ todo' :: l2 /\
    TodoItem.id todo' = JStr id0 /\
    TodoItem.text todo' = js "Walk dog" /\
    TodoItem.createdAt todo' = JStr (iso host0 0) /\
    TodoItem.completed todo' = JBool true /\
    TodoItem.updatedAt todo' = JStr (iso host2 0) /\
    List.length (TodoManager.todos (manager_of r)) = 2 /\
    TodoManager.currentSearch (manager_of r) = js "milk" /\
    TodoManager.currentFilter (manager_of r) = js "all" /\
    TodoManager.editingTodoId (manager_of r) = None.
Proof.
  exact (toggleTodo_frame (H := sample_runtime) id0 host2
           (fst searched) (snd searched)
           (TodoItem.new (js "Walk dog") None host0) eq_refl).
Defined.

(* ===================================================================== *)
(** ** Ids that are absent, and deleteTodo                                *)
(* ===================================================================== *)

Lemma absent_not_found `{Runtime} (id newText : jsstring) (h : Host)
    (m : TodoManager.t) (w : World) :
  find_first (TodoManager.has_id id) (TodoManager.todos m) = None ->
  TodoManager.updateTodo id newText h m w = (Throw NotFound, m, w) /\
  TodoManager.toggleTodo id h m w = (Throw NotFound, m, w) /\
  TodoManager.deleteTodo id h m w = (Throw NotFound, m, w).
Proof.
  intros F. unfold TodoManager.updateTodo, TodoManager.toggleTodo,
              TodoManager.deleteTodo.
  rewrite F. apply findIndex_none in F. rewrite F. auto.
Qed.

Lemma deleteTodo_found `{Runtime} (id : jsstring) (h : Host)
    (m : TodoManager.t) (w : World) (todo : TodoItem.t) :
  find_first (TodoManager.has_id id) (TodoManager.todos m) = Some todo ->
  exists l1 l2,
    TodoManager.todos m = l1 ++ todo :: l2 /\
    forallb (fun y => negb (TodoManager.has_id id y)) l1 = true /\
    TodoManager.has_id id todo = true /\
    TodoManager.deleteTodo id h m w =
    (Ok tt,
     TodoManager.applyFilters (TodoManager.set_todos (l1 ++ l2) m),
     StorageService.saveTodos (l1 ++ l2) h w).
Proof.
  intros F. unfold TodoManager.deleteTodo, TodoManager.saveTodos.
  destruct (findIndex (TodoManager.has_id id) (TodoManager.todos m)) as [i|] eqn:I.
  - destruct (findIndex_split _ _ _ I) as [l1 [x [l2 [E [_ [H1 [Hx S]]]]]]].
    rewrite E in F. rewrite (find_first_app _ l1 l2 x H1 Hx) in F.
    injection F as ->. exists l1, l2. rewrite S. auto.
  - apply findIndex_none in I. congruence.
Qed.

Lemma filter_none {A : Type} (p : A -> bool) (l : list A) :
  filter p l = [] <-> forallb (fun y => negb (p y)) l = true.
Proof.
  induction l as [|x l IH]; simpl; [tauto|].
  destruct (p x); simpl; [split; discriminate|exact IH].
Qed.

Lemma forallb_app_both {A : Type} (p : A -> bool) (l1 l2 : list A) :
  forallb p l1 = true -> forallb p l2 = true -> forallb p (l1 ++ l2) = true.
Proof. intros H1 H2. rewrite forallb_app, H1, H2. reflexivity. Qed.

(** C9, as amended.  For an id that is not in the collection, [updateTodo],
    [toggleTodo] and [deleteTodo] each throw NotFound and leave the
    collection, the view state and the stored text as they were.  A
    successful [deleteTodo id] removes the first task under that id (no
    task before it has the id) and keeps the others in their order; and
    when that id was the id of one task only, the same delete again
    throws NotFound and changes nothing. *)
Theorem delete_then_not_found `{Runtime} (id newText : jsstring) (h h' : Host)
    (m : TodoManager.t) (w : World) :
  (find_first (TodoManager.has_id id) (TodoManager.todos m) = None ->
   TodoManager.updateTodo id newText h m w = (Throw NotFound, m, w) /\
   TodoManager.toggleTodo id h m w = (Throw NotFound, m, w) /\
   TodoManager.deleteTodo id h m w = (Throw NotFound, m, w)) /\
  (forall todo,
     find_first (TodoManager.has_id id) (TodoManager.todos m) = Some todo ->
     let r := TodoManager.deleteTodo id h m w in
     exists l1 l2,
       TodoManager.todos m = l1 ++ todo :: l2 /\
       forallb (fun y => negb (TodoManager.has_id id y)) l1 = true /\
       outcome_of r = Ok tt /\
       TodoManager.todos (manager_of r) = l1 ++ l2 /\
       (List.length (filter (TodoManager.has_id id) (TodoManager.todos m)) = 1 ->
        TodoManager.deleteTodo id h' (manager_of r) (world_of r)
        = (Throw NotFound, manager_of r, world_of r))).
Proof.
  split; [apply absent_not_found|].
  intros todo F r. subst r.
  destruct (deleteTodo_found id h m w todo F) as [l1 [l2 [E [H1 [Hx ->]]]]].
  exists l1, l2. unfold outcome_of, manager_of, world_of. simpl.
  repeat split; trivial.
  intros Once. apply (absent_not_found id newText). simpl.
  apply find_first_none. apply forallb_app_both; [exact H1|].
  apply filter_none. rewrite E, filter_app in Once. simpl in Once.
  rewrite Hx in Once. rewrite (proj2 (filter_none _ l1) H1) in Once.
  simpl in Once. destruct (filter (TodoManager.has_id id) l2);
    [reflexivity|discriminate].
Qed.

Lemma delete_then_not_found_witness :
  let r := TodoManager.deleteTodo (H := sample_runtime) id0 host2
             (fst two_tasks) (snd two_tasks) in
  (exists l1 l2,
     TodoManager.todos (fst two_tasks)
       = l1 ++ TodoItem.new (js "Walk dog") None host0 :: l2 /\
     outcome_of r = Ok tt /\
     TodoManager.todos (manager_of r) = l1 ++ l2) /\
  TodoManager.deleteTodo (H := sample_runtime) id0 host2
    (manager_of r) (world_of r)
  = (Throw NotFound, manager_of r, world_of r).
Proof.
  intros r.
  destruct (proj2 (delete_then_not_found (H := sample_runtime) id0 [] host2 host2
                     (fst two_tasks) (snd two_tasks))
              (TodoItem.new (js "Walk dog") None host0) eq_refl)
    as [l1 [l2 [E [_ [O [T N]]]]]].
  split.
  - exists l1, l2. auto.
  - apply N. reflexivity.
Defined.

Lemma twin_store_reachable : reachable (H := sample_runtime) twin_store.
Proof. apply reachable_new. Qed.

(** C9's "in particular" fails as worded on a store loaded from a blob in
    which two records share an id: the first delete removes one of them
    and the second delete succeeds on the other. *)
Lemma second_delete_succeeds : ~ second_delete_not_found (H := sample_runtime).
Proof.
  intros C.
  specialize (C (js "a") host1 host2 twin_store twin_store_reachable eq_refl).
  vm_compute in C. discriminate C.
Qed.

(* ===================================================================== *)
(** ** Every task in the store has an id                                  *)
(* ===================================================================== *)

Lemma forallb_mutate_first {A : Type} (p q : A -> bool) (f : A -> A) (l : list A) :
  (forall x, q x = true -> q (f x) = true) ->
  forallb q l = true -> forallb q (mutate_first p f l) = true.
Proof.
  intros Hf. induction l as [|x l IH]; simpl; [reflexivity|].
  rewrite andb_true_iff. intros [Hx Hl].
  destruct (p x); simpl; rewrite andb_true_iff; auto.
Qed.

Lemma forallb_splice1 {A : Type} (q : A -> bool) (i : nat) (l : list A) :
  forallb q l = true -> forallb q (splice1 i l) = true.
Proof.
  revert i. induction l as [|x l IH]; intros i; simpl; [reflexivity|].
  rewrite andb_true_iff. intros [Hx Hl].
  destruct i; simpl; [exact Hl|]. rewrite andb_true_iff. auto.
Qed.

Lemma forallb_find_first {A : Type} (p q : A -> bool) (l : list A) (x : A) :
  find_first p l = Some x -> forallb q l = true -> q x = true.
Proof.
  intros F Q. destruct (find_first_split p l x F) as [l1 [l2 [-> _]]].
  rewrite forallb_app in Q. simpl in Q.
  apply andb_true_iff in Q. destruct Q as [_ Q].
  now apply andb_true_iff in Q.
Qed.

Lemma map_fromJSON_ids (items : list json) (hosts : nat -> Host) (i : nat)
    (todos : list TodoItem.t) :
  StorageService.map_fromJSON items hosts i = inr todos -> ids_truthy todos = true.
Proof.
  revert i todos. induction items as [|item items IH]; intros i todos;
    cbn [StorageService.map_fromJSON].
  - intros E. now injection E as <-.
  - destruct (TodoItem.fromJSON item (hosts i)) as [f|todo] eqn:E; [discriminate|].
    destruct (StorageService.map_fromJSON items hosts (S i)) as [f|rest] eqn:R;
      [discriminate|].
    intros E'. injection E' as <-. unfold ids_truthy. simpl.
    rewrite (fromJSON_id_truthy item (hosts i) todo E). simpl.
    exact (IH (S i) rest R).
Qed.

Lemma getTodos_ids `{Runtime} (hosts : nat -> Host) (w : World) :
  ids_truthy (fst (StorageService.getTodos hosts w)) = true.
Proof.
  unfold StorageService.getTodos.
  destruct (stored w) as [[|c r]|]; try reflexivity.
  unfold StorageService.decode.
  destruct (JSON_parse (c :: r)) as [[| b | x | s | items | fields]|];
    try reflexivity.
  destruct (StorageService.map_fromJSON items hosts 0) as [f|todos] eqn:E;
    [reflexivity|].
  simpl. exact (map_fromJSON_ids items hosts 0 todos E).
Qed.

Lemma run_ids `{Runtime} (c : call) (s : state) :
  ids_truthy (TodoManager.todos (fst s)) = true ->
  ids_truthy (TodoManager.todos (fst (run c s))) = true.
Proof.
  destruct s as [m w]. simpl. intros Hm. destruct c; simpl; trivial.
  - unfold TodoManager.addTodo.
    destruct (Utils.validateTodo text) as [valid|e]; simpl; [|exact Hm].
    unfold ids_truthy. simpl. exact Hm.
  - unfold TodoManager.updateTodo.
    destruct (find_first _ _) as [todo|] eqn:F; simpl; [|exact Hm].
    unfold TodoItem.updateText.
    destruct (Utils.validateTodo newText) as [valid|e]; simpl; [|exact Hm].
    apply forallb_mutate_first; [|exact Hm].
    intros _ _. simpl.
    exact (forallb_find_first _ _ _ todo F Hm).
  - unfold TodoManager.toggleTodo.
    destruct (find_first _ _) as [todo|]; simpl; [|exact Hm].
    apply forallb_mutate_first; [|exact Hm]. intros x Hx. exact Hx.
  - unfold TodoManager.deleteTodo.
    destruct (findIndex _ _) as [i|]; simpl; [|exact Hm].
    now apply forallb_splice1.
Qed.

(** In every state of the store, every task has a truthy id: the
    condition on the id in the round trip is met by the store's own
    collection. *)
Lemma reachable_ids `{Runtime} (s : state) :
  reachable s -> ids_truthy (TodoManager.todos (fst s)) = true.
Proof.
  induction 1 as [hosts w|w|c s _ IH].
  - unfold TodoManager.new, TodoManager.loadTodos.
    pose proof (getTodos_ids hosts w) as G.
    destruct (StorageService.getTodos hosts w) as [l w']. exact G.
  - reflexivity.
  - now apply run_ids.
Qed.

(* ===================================================================== *)
(** ** updateTodo                                                         *)
(* ===================================================================== *)

Lemma updateTodo_found `{Runtime} (id newText valid : jsstring) (h : Host)
    (m : TodoManager.t) (w : World) (todo : TodoItem.t) :
  find_first (TodoManager.has_id id) (TodoManager.todos m) = Some todo ->
  Utils.validateTodo newText = Ok valid ->
  exists l1 l2 todo',
    TodoManager.todos m = l1 ++ todo :: l2 /\
    forallb (fun y => negb (TodoManager.has_id id y)) l1 = true /\
    TodoItem.updateText todo newText h = Ok todo' /\
    TodoManager.updateTodo id newText h m w =
    (Ok tt,
     TodoManager.applyFilters (TodoManager.set_todos (l1 ++ todo' :: l2) m),
     StorageService.saveTodos (l1 ++ todo' :: l2) h w).
Proof.
  intros F V. destruct (find_first_split _ _ _ F) as [l1 [l2 [E [H1 Hx]]]].
  unfold TodoManager.updateTodo, TodoManager.saveTodos. rewrite F.
  unfold TodoItem.updateText. rewrite V.
  eexists l1, l2, _. repeat split; trivial.
  rewrite E, (mutate_first_app _ _ l1 l2 todo H1 Hx). reflexivity.
Qed.

(** X1.  [updateTodo] with an id that is present and a text whose trimmed
    length is between 1 and 100 succeeds; the first task under that id
    gets the trimmed text and the clock reading as updatedAt, and keeps
    its id, its completed flag and createdAt; the other tasks, the order,
    the search term, the status filter and the editing slot are
    unchanged, and the new collection is handed to storage. *)
Theorem updateTodo_frame `{Runtime} (id newText : jsstring) (h : Host)
    (m : TodoManager.t) (w : World) (todo : TodoItem.t) :
  find_first (TodoManager.has_id id) (TodoManager.todos m) = Some todo ->
  1 <= List.length (trim newText) <= 100 ->
  let r := TodoManager.updateTodo id newText h m w in
  exists l1 l2 todo',
    outcome_of r = Ok tt /\
    TodoManager.todos m = l1 ++ todo :: l2 /\
    TodoManager.todos (manager_of r) = l1 ++ todo' :: l2 /\
    TodoItem.text todo' = trim newText /\
    TodoItem.updatedAt todo' = JStr (iso h 0) /\
    TodoItem.id todo' = TodoItem.id todo /\
    TodoItem.completed todo' = TodoItem.completed todo /\
    TodoItem.createdAt todo' = TodoItem.createdAt todo /\
    TodoManager.currentSearch (manager_of r) = TodoManager.currentSearch m /\
    TodoManager.currentFilter (manager_of r) = TodoManager.currentFilter m /\
    TodoManager.editingTodoId (manager_of r) = TodoManager.editingTodoId m /\
    world_of r = StorageService.saveTodos (l1 ++ todo' :: l2) h w.
Proof.
  intros F L r. subst r. apply validateTodo_ok in L.
  destruct (updateTodo_found id newText (trim newText) h m w todo F L)
    as [l1 [l2 [todo' [E [_ [U ->]]]]]].
  exists l1, l2, todo'. unfold TodoItem.updateText in U. rewrite L in U.
  injection U as <-. unfold outcome_of, manager_of, world_of. simpl.
  repeat split. exact E.
Qed.

Lemma updateTodo_frame_witness :
  let r := TodoManager.updateTodo (H := sample_runtime) id0 (js " Walk the dog  ")
             host2 (fst searched) (snd searched) in
  exists l1 l2 todo',
    outcome_of r = Ok tt /\
    TodoManager.todos (fst searched)
      = l1 ++ TodoItem.new (js "Walk dog") None host0 :: l2 /\
    TodoManager.todos (manager_of r) = l1 ++ todo' :: l2 /\
    TodoItem.text todo' = js "Walk the dog" /\
    TodoItem.updatedAt todo' = JStr (iso host2 0) /\
    TodoItem.id todo' = JStr id0 /\
    TodoItem.completed todo' = JBool false /\
    TodoItem.createdAt todo' = JStr (iso host0 0) /\
    TodoManager.currentSearch (manager_of r) = js "milk" /\
    TodoManager.currentFilter (manager_of r) = js "all" /\
    TodoManager.editingTodoId (manager_of r) = None /\
    world_of r = StorageService.saveTodos (H := sample_runtime)
                   (l1 ++ todo' :: l2) host2 (snd searched).
Proof.
  apply (updateTodo_frame (H := sample_runtime) id0 (js " Walk the dog  ") host2
           (fst searched) (snd searched)
           (TodoItem.new (js "Walk dog") None host0) eq_refl).
  vm_compute. split; repeat constructor.
Defined.

(** X2.  [updateTodo] with an id that is present and a text that
    validation refuses throws the validation error, EmptyInput when the
    trimmed text is empty and TooLong when it is longer than 100, and
    changes nothing: the task keeps its text and updatedAt, and nothing is
    written to storage. *)
Theorem updateTodo_invalid `{Runtime} (id newText : jsstring) (h : Host)
    (m : TodoManager.t) (w : World) (todo : TodoItem.t) :
  find_first (TodoManager.has_id id) (TodoManager.todos m) = Some todo ->
  (trim newText = [] ->
   TodoManager.updateTodo id newText h m w = (Throw EmptyInput, m, w)) /\
  (100 < List.length (trim newText) ->
   TodoManager.updateTodo id newText h m w = (Throw TooLong, m, w)).
Proof.
  intros F. unfold TodoManager.updateTodo, TodoItem.updateText. rewrite F.
  split; intros E.
  - apply validateTodo_empty in E. now rewrite E.
  - apply validateTodo_too_long in E. now rewrite E.
Qed.

Lemma updateTodo_invalid_witness :
  TodoManager.updateTodo (H := sample_runtime) id0 (js "   ") host2
    (fst two_tasks) (snd two_tasks)
  = (Throw EmptyInput, fst two_tasks, snd two_tasks) /\
  TodoManager.updateTodo (H := sample_runtime) id0 (repeat_char 97 101) host2
    (fst two_tasks) (snd two_tasks)
  = (Throw TooLong, fst two_tasks, snd two_tasks).
Proof.
  destruct (updateTodo_invalid (H := sample_runtime) id0 (js "   ") host2
              (fst two_tasks) (snd two_tasks)
              (TodoItem.new (js "Walk dog") None host0) eq_refl) as [E _].
  destruct (updateTodo_invalid (H := sample_runtime) id0 (repeat_char 97 101)
              host2 (fst two_tasks) (snd two_tasks)
              (TodoItem.new (js "Walk dog") None host0) eq_refl) as [_ L].
  split.
  - apply E. reflexivity.
  - apply L. vm_compute. repeat constructor.
Defined.

(* ===================================================================== *)
(** ** Decoding a stored record                                           *)
(* ===================================================================== *)

Lemma or_else_default (v : option json) (d : json) :
  defaulted v = true -> or_else v d = d.
Proof.
  destruct v as [x|]; simpl; [|reflexivity].
  destruct (truthy x); [discriminate|reflexivity].
Qed.

(** [fromJSON] on an object that holds a string text. *)
Lemma fromJSON_object (fields : list (jsstring * json)) (s : jsstring) (h : Host) :
  lookup_field (js "text") fields = Some (JStr s) ->
  TodoItem.fromJSON (JObj fields) h =
  inr {| TodoItem.id :=
           or_else (lookup_field (js "id") fields) (JStr (Utils.generateId h));
         TodoItem.text := trim s;
         TodoItem.completed :=
           or_else (lookup_field (js "completed") fields) (JBool false);
         TodoItem.createdAt :=
           or_else (lookup_field (js "createdAt") fields) (JStr (iso h 2));
         TodoItem.updatedAt :=
           or_else (lookup_field (js "updatedAt") fields)
             (JStr (iso h (if truthy_opt (lookup_field (js "createdAt") fields)
                           then 2 else 3))) |}.
Proof.
  intros T. unfold TodoItem.fromJSON, get. rewrite T. reflexivity.
Qed.

Lemma defaulted_truthy_opt (v : option json) : truthy_opt v = negb (defaulted v).
Proof. destruct v as [x|]; simpl; [now rewrite negb_involutive|reflexivity]. Qed.

(** X3.  [fromJSON] on an object with a string text trims the text, keeps
    each of id, completed, createdAt and updatedAt when the stored value
    is truthy, and otherwise, when the field is missing or falsy, takes a
    generated id, [false], and a clock reading taken at that moment: the
    third reading of the call for createdAt, and for updatedAt the
    reading after it, that is the fourth when createdAt was defaulted too
    and the third when createdAt was kept. *)
Theorem fromJSON_defaults (fields : list (jsstring * json)) (s : jsstring)
    (h : Host) :
  lookup_field (js "text") fields = Some (JStr s) ->
  exists todo,
    TodoItem.fromJSON (JObj fields) h = inr todo /\
    TodoItem.text todo = trim s /\
    (defaulted (lookup_field (js "id") fields) = true ->
     TodoItem.id todo = JStr (Utils.generateId h)) /\
    (defaulted (lookup_field (js "completed") fields) = true ->
     TodoItem.completed todo = JBool false) /\
    (defaulted (lookup_field (js "createdAt") fields) = true ->
     TodoItem.createdAt todo = JStr (iso h 2)) /\
    (defaulted (lookup_field (js "updatedAt") fields) = true ->
     TodoItem.updatedAt todo
     = JStr (iso h (if defaulted (lookup_field (js "createdAt") fields)
                    then 3 else 2))) /\
    (forall v, lookup_field (js "id") fields = Some v -> truthy v = true ->
               TodoItem.id todo = v) /\
    (forall v, lookup_field (js "completed") fields = Some v -> truthy v = true ->
               TodoItem.completed todo = v) /\
    (forall v, lookup_field (js "createdAt") fields = Some v -> truthy v = true ->
               TodoItem.createdAt todo = v) /\
    (forall v, lookup_field (js "updatedAt") fields = Some v -> truthy v = true ->
               TodoItem.updatedAt todo = v).
Proof.
  intros T. rewrite (fromJSON_object fields s h T).
  eexists. split; [reflexivity|]. cbn [TodoItem.id TodoItem.text
    TodoItem.completed TodoItem.createdAt TodoItem.updatedAt].
  split; [reflexivity|].
  rewrite defaulted_truthy_opt.
  repeat split; try (intros D; now apply or_else_default);
    try (intros v E Tv; rewrite E; now apply or_else_keeps).
  intros D. rewrite (or_else_default _ _ D).
  now destruct (defaulted (lookup_field (js "createdAt") fields)).
Qed.

(** Two stored records read on a clock that moves: one that kept its
    createdAt and lacks updatedAt, one that lacks both. *)
Lemma fromJSON_defaults_witness :
  (exists todo,
     TodoItem.fromJSON (JObj [(js "text", JStr (js "  Pay rent "));
                              (js "completed", JNull);
                              (js "createdAt", JStr (js "2020-01-01T00:00:00.000Z"))])
       host_ticking = inr todo /\
     TodoItem.text todo = js "Pay rent" /\
     TodoItem.id todo = JStr id_host1 /\
     TodoItem.completed todo = JBool false /\
     TodoItem.createdAt todo = JStr (js "2020-01-01T00:00:00.000Z") /\
     TodoItem.updatedAt todo = JStr (js "2023-11-14T22:13:25.002Z")) /\
  (exists todo,
     TodoItem.fromJSON (JObj [(js "text", JStr (js "Pay rent"))]) host_ticking
       = inr todo /\
     TodoItem.createdAt todo = JStr (js "2023-11-14T22:13:25.002Z") /\
     TodoItem.updatedAt todo = JStr (js "2023-11-14T22:13:25.003Z")).
Proof.
  split.
  - destruct (fromJSON_defaults
                [(js "text", JStr (js "  Pay rent "));
                 (js "completed", JNull);
                 (js "createdAt", JStr (js "2020-01-01T00:00:00.000Z"))]
                (js "  Pay rent ") host_ticking eq_refl)
      as [todo [E [T [I [C [_ [U [_ [_ [K _]]]]]]]]]].
    exists todo. repeat split; trivial.
    + now apply I.
    + now apply C.
    + now apply (K (JStr (js "2020-01-01T00:00:00.000Z"))).
    + now apply U.
  - destruct (fromJSON_defaults [(js "text", JStr (js "Pay rent"))]
                (js "Pay rent") host_ticking eq_refl)
      as [todo [E [_ [_ [_ [C [U _]]]]]]].
    exists todo. repeat split; trivial.
    + now apply C.
    + now apply U.
Defined.

(* ===================================================================== *)
(** ** Invariants of the collection                                       *)
(* ===================================================================== *)

(** A property of tasks that the three ways of making or changing a task
    keep is kept by every call. *)
Lemma run_forallb `{Runtime} (q : TodoItem.t -> bool) :
  (forall text valid h,
     Utils.validateTodo text = Ok valid -> q (TodoItem.new valid None h) = true) ->
  (forall todo h, q todo = true -> q (TodoItem.toggleComplete todo h) = true) ->
  (forall todo newText h todo',
     q todo = true -> TodoItem.updateText todo newText h = Ok todo' ->
     q todo' = true) ->
  forall (c : call) (s : state),
    forallb q (TodoManager.todos (fst s)) = true ->
    forallb q (TodoManager.todos (fst (run c s))) = true.
Proof.
  intros Hnew Htoggle Hupdate c [m w]. simpl. intros Hm.
  destruct c; simpl; trivial.
  - unfold TodoManager.addTodo.
    destruct (Utils.validateTodo text) as [valid|e] eqn:V; simpl; [|exact Hm].
    rewrite (Hnew text valid h V). exact Hm.
  - unfold TodoManager.updateTodo.
    destruct (find_first _ _) as [todo|] eqn:F; simpl; [|exact Hm].
    destruct (TodoItem.updateText todo newText h) as [todo'|e] eqn:U; simpl;
      [|exact Hm].
    apply forallb_mutate_first; [|exact Hm]. intros _ _.
    apply (Hupdate todo newText h todo'); [|exact U].
    exact (forallb_find_first _ _ _ todo F Hm).
  - unfold TodoManager.toggleTodo.
    destruct (find_first _ _) as [todo|]; simpl; [|exact Hm].
    apply forallb_mutate_first; [|exact Hm]. intros x Hx. now apply Htoggle.
  - unfold TodoManager.deleteTodo.
    destruct (findIndex _ _) as [i|]; simpl; [|exact Hm].
    now apply forallb_splice1.
Qed.

Lemma run_all_forallb `{Runtime} (q : TodoItem.t -> bool) :
  (forall c s, forallb q (TodoManager.todos (fst s)) = true ->
               forallb q (TodoManager.todos (fst (run c s))) = true) ->
  forall (cs : list call) (s : state),
    forallb q (TodoManager.todos (fst s)) = true ->
    forallb q (TodoManager.todos (fst (run_all cs s))) = true.
Proof.
  intros Hrun cs. induction cs as [|c cs IH]; intros s Hs; simpl; [exact Hs|].
  apply IH. now apply Hrun.
Qed.

Lemma text_valid_accepted (text valid : jsstring) (h : Host) :
  Utils.validateTodo text = Ok valid ->
  text_valid (TodoItem.new valid None h) = true.
Proof.
  intros V. apply validateTodo_returns in V. destruct V as [-> L].
  unfold text_valid, TodoItem.new. simpl. rewrite trim_idempotent.
  assert (V : Utils.validateTodo (trim text) = Ok (trim (trim text))).
  { apply validateTodo_ok. now rewrite trim_idempotent. }
  rewrite V, trim_idempotent. apply str_eqb_refl.
Qed.

Lemma text_valid_updated (todo : TodoItem.t) (newText : jsstring) (h : Host)
    (todo' : TodoItem.t) :
  TodoItem.updateText todo newText h = Ok todo' -> text_valid todo' = true.
Proof.
  unfold TodoItem.updateText.
  destruct (Utils.validateTodo newText) as [valid|e] eqn:V; [|discriminate].
  intros E. injection E as <-. unfold text_valid. simpl.
  apply validateTodo_returns in V. destruct V as [-> L].
  assert (V : Utils.validateTodo (trim newText) = Ok (trim (trim newText))).
  { apply validateTodo_ok. now rewrite trim_idempotent. }
  rewrite V, trim_idempotent. apply str_eqb_refl.
Qed.

Lemma run_texts_valid `{Runtime} (c : call) (s : state) :
  texts_valid (TodoManager.todos (fst s)) = true ->
  texts_valid (TodoManager.todos (fst (run c s))) = true.
Proof.
  apply (run_forallb text_valid).
  - intros text valid h V. now apply (text_valid_accepted text).
  - intros todo h Q. exact Q.
  - intros todo newText h todo' _ U. now apply (text_valid_updated todo newText h).
Qed.

(** X4.  A store constructed when nothing is stored, or when the empty
    string is, and driven by any calls holds only tasks whose text is
    trimmed, not empty and at most 100 code units long; and any call on
    any store keeps that property of the collection. *)
Theorem fresh_store_texts_valid `{Runtime} (hosts : nat -> Host) (w : World)
    (cs : list call) :
  stored w = None \/ stored w = Some [] ->
  texts_valid (TodoManager.todos (fst (run_all cs (TodoManager.new hosts w))))
    = true /\
  (forall c s, texts_valid (TodoManager.todos (fst s)) = true ->
               texts_valid (TodoManager.todos (fst (run c s))) = true).
Proof.
  intros S. split; [|exact run_texts_valid].
  apply (run_all_forallb text_valid run_texts_valid).
  unfold TodoManager.new, TodoManager.loadTodos, StorageService.getTodos.
  destruct S as [-> | ->]; reflexivity.
Qed.

Lemma fresh_store_texts_valid_witness :
  texts_valid (TodoManager.todos (fst two_tasks)) = true.
Proof.
  exact (proj1 (fresh_store_texts_valid (H := sample_runtime) (fun _ => host0)
                  first_run
                  [ AddTodo (js "Walk dog") host0; AddTodo (js "  Buy milk ") host1 ]
                  (or_introl eq_refl))).
Defined.

Lemma fromJSON_trimmed (data : json) (h : Host) (todo : TodoItem.t) :
  TodoItem.fromJSON data h = inr todo -> text_trimmed todo = true.
Proof.
  unfold TodoItem.fromJSON.
  destruct (get data (js "text")) as [f|[[| b | x | s | items | fields]|]];
    try discriminate.
  destruct (get data (js "id")) as [f|id0]; [discriminate|].
  intros E. injection E as <-. unfold text_trimmed. simpl.
  rewrite trim_idempotent. apply str_eqb_refl.
Qed.

Lemma map_fromJSON_wellformed (items : list json) (hosts : nat -> Host) (i : nat)
    (todos : list TodoItem.t) :
  StorageService.map_fromJSON items hosts i = inr todos ->
  forallb has_id_and_trimmed todos = true.
Proof.
  revert i todos. induction items as [|item items IH]; intros i todos;
    cbn [StorageService.map_fromJSON].
  - intros E. now injection E as <-.
  - destruct (TodoItem.fromJSON item (hosts i)) as [f|todo] eqn:E; [discriminate|].
    destruct (StorageService.map_fromJSON items hosts (S i)) as [f|rest] eqn:R;
      [discriminate|].
    intros E'. injection E' as <-. simpl. unfold has_id_and_trimmed at 1.
    rewrite (fromJSON_id_truthy item (hosts i) todo E),
            (fromJSON_trimmed item (hosts i) todo E).
    exact (IH (S i) rest R).
Qed.

Lemma getTodos_wellformed `{Runtime} (hosts : nat -> Host) (w : World) :
  forallb has_id_and_trimmed (fst (StorageService.getTodos hosts w)) = true.
Proof.
  unfold StorageService.getTodos.
  destruct (stored w) as [[|c r]|]; try reflexivity.
  unfold StorageService.decode.
  destruct (JSON_parse (c :: r)) as [[| b | x | s | items | fields]|];
    try reflexivity.
  destruct (StorageService.map_fromJSON items hosts 0) as [f|todos] eqn:E;
    [reflexivity|].
  simpl. exact (map_fromJSON_wellformed items hosts 0 todos E).
Qed.

Lemma run_wellformed `{Runtime} (c : call) (s : state) :
  forallb has_id_and_trimmed (TodoManager.todos (fst s)) = true ->
  forallb has_id_and_trimmed (TodoManager.todos (fst (run c s))) = true.
Proof.
  apply (run_forallb has_id_and_trimmed).
  - intros text valid h V. unfold has_id_and_trimmed, text_trimmed. simpl.
    rewrite trim_idempotent. apply str_eqb_refl.
  - intros todo h Q. exact Q.
  - intros todo newText h todo' Q. unfold TodoItem.updateText.
    destruct (Utils.validateTodo newText) as [valid|e] eqn:V; [|discriminate].
    intros E. injection E as <-. apply validateTodo_returns in V.
    destruct V as [-> _]. unfold has_id_and_trimmed, text_trimmed in *.
    simpl. apply andb_true_iff in Q. destruct Q as [-> _]. simpl.
    rewrite trim_idempotent. apply str_eqb_refl.
Qed.

Lemma reachable_tasks `{Runtime} (s : state) :
  reachable s ->
  forallb has_id_and_trimmed (TodoManager.todos (fst s)) = true.
Proof.
  induction 1 as [hosts w|w|c s _ IH].
  - unfold TodoManager.new, TodoManager.loadTodos.
    pose proof (getTodos_wellformed hosts w) as G.
    destruct (StorageService.getTodos hosts w) as [l w']. exact G.
  - reflexivity.
  - now apply run_wellformed.
Qed.

(** X5.  In every state of the store, whatever storage held when it was
    constructed, every task has a truthy id and a text without white
    space at either end. *)
Theorem reachable_wellformed `{Runtime} (s : state) :
  reachable s ->
  forall todo, In todo (TodoManager.todos (fst s)) ->
    truthy (TodoItem.id todo) = true /\
    trim (TodoItem.text todo) = TodoItem.text todo.
Proof.
  intros R.
  pose proof (reachable_tasks s R) as W.
  intros todo Hin. rewrite forallb_forall in W. specialize (W todo Hin).
  apply andb_true_iff in W. destruct W as [I T]. split; [exact I|].
  now apply str_eqb_eq.
Qed.

Lemma reachable_wellformed_witness :
  Forall (fun todo => truthy (TodoItem.id todo) = true /\
                      trim (TodoItem.text todo) = TodoItem.text todo)
         (TodoManager.todos (fst twin_store)).
Proof.
  apply Forall_forall.
  exact (reachable_wellformed (H := sample_runtime) twin_store twin_store_reachable).
Defined.

(* ===================================================================== *)
(** ** More on the view                                                   *)
(* ===================================================================== *)

(** For any filter string, the view is one filter of the collection. *)
Lemma applyFilters_passes `{Runtime} (m : TodoManager.t) :
  TodoManager.filteredTodos (TodoManager.applyFilters m)
  = filter (passes m) (TodoManager.todos m).
Proof.
  unfold TodoManager.applyFilters, passes. simpl.
  destruct (TodoManager.currentSearch m) as [|c r].
  - destruct (str_eqb (TodoManager.currentFilter m) (js "pending")); [reflexivity|].
    destruct (str_eqb (TodoManager.currentFilter m) (js "completed"));
      [reflexivity|].
    symmetry. apply filter_all.
  - destruct (str_eqb (TodoManager.currentFilter m) (js "pending"));
      [apply filter_filter|].
    destruct (str_eqb (TodoManager.currentFilter m) (js "completed"));
      [apply filter_filter|].
    apply filter_ext. intros todo. now rewrite andb_true_r.
Qed.

(** X6.  [setFilter] accepts any string: one that is neither "pending"
    nor "completed" filters nothing by status, so the view is the one
    that "all" gives. *)
Theorem setFilter_unknown `{Runtime} (status : jsstring) (m : TodoManager.t) :
  status <> js "pending" -> status <> js "completed" ->
  TodoManager.filteredTodos (TodoManager.setFilter status m)
  = TodoManager.filteredTodos (TodoManager.setFilter (js "all") m) /\
  TodoManager.currentFilter (TodoManager.setFilter status m) = status.
Proof.
  intros Np Nc. split; [|reflexivity].
  unfold TodoManager.setFilter. rewrite !applyFilters_passes. simpl.
  apply filter_ext. intros todo. unfold passes. simpl.
  apply str_eqb_neq in Np, Nc. now rewrite Np, Nc.
Qed.

Lemma setFilter_unknown_witness :
  TodoManager.filteredTodos
    (TodoManager.setFilter (H := sample_runtime) (js "done") (fst searched))
  = TodoManager.filteredTodos
      (TodoManager.setFilter (H := sample_runtime) (js "all") (fst searched)) /\
  TodoManager.currentFilter
    (TodoManager.setFilter (H := sample_runtime) (js "done") (fst searched))
  = js "done".
Proof.
  apply (setFilter_unknown (H := sample_runtime)); discriminate.
Defined.

(** X7.  A search term that is empty once lower-cased and trimmed
    switches the search off: the view is the collection filtered by
    status alone. *)
Theorem setSearch_blank `{Runtime} (term : jsstring) (m : TodoManager.t)
    (st : status) :
  trim (toLowerCase term) = [] ->
  TodoManager.currentFilter m = status_name st ->
  TodoManager.filteredTodos (TodoManager.setSearch term m)
  = filter (keeps_status st) (TodoManager.todos m).
Proof.
  intros B Est. unfold TodoManager.setSearch. rewrite applyFilters_passes. simpl.
  apply filter_ext. intros todo. unfold passes. simpl. rewrite B, Est.
  now destruct st.
Qed.

Lemma setSearch_blank_witness :
  TodoManager.filteredTodos
    (TodoManager.setSearch (H := sample_runtime) (js "   ") (fst searched))
  = filter (keeps_status All) (TodoManager.todos (fst searched)).
Proof.
  apply (setSearch_blank (H := sample_runtime)); reflexivity.
Defined.

(** X8.  After a successful [addTodo] on a store whose view is current,
    the view is the former view with the new task put in front when it
    passes the search and the status filter, and the former view as it
    was when it does not. *)
Theorem addTodo_view `{Runtime} (text : jsstring) (h : Host) (s : state) :
  reachable s ->
  1 <= List.length (trim text) <= 100 ->
  let r := TodoManager.addTodo text h (fst s) (snd s) in
  exists todo,
    outcome_of r = Ok todo /\
    TodoManager.filteredTodos (manager_of r)
    = (if passes (fst s) todo then [todo] else [])
      ++ TodoManager.filteredTodos (fst s).
Proof.
  intros R L r. subst r. apply validateTodo_ok in L.
  rewrite (addTodo_accepts text (trim text) h (fst s) (snd s) L).
  exists (TodoItem.new (trim text) None h). split; [reflexivity|].
  unfold manager_of. cbn [fst snd]. rewrite applyFilters_passes.
  pose proof (reachable_current s R) as V. unfold view_current in V.
  assert (Vw : TodoManager.filteredTodos (fst s)
               = filter (passes (fst s)) (TodoManager.todos (fst s))).
  { rewrite <- applyFilters_passes. now rewrite V. }
  rewrite Vw.
  cbn [TodoManager.set_todos TodoManager.todos filter].
  assert (P : passes (TodoManager.set_todos
                        (TodoItem.new (trim text) None h
                         :: TodoManager.todos (fst s)) (fst s))
              = passes (fst s)) by reflexivity.
  rewrite P. now destruct (passes (fst s) (TodoItem.new (trim text) None h)).
Qed.

Lemma addTodo_view_witness :
  let r := TodoManager.addTodo (H := sample_runtime) (js "Call mom") host2
             (fst searched) (snd searched) in
  exists todo,
    outcome_of r = Ok todo /\
    TodoManager.filteredTodos (manager_of r)
    = (if passes (H := sample_runtime) (fst searched) todo then [todo] else [])
      ++ TodoManager.filteredTodos (fst searched).
Proof.
  apply (addTodo_view (H := sample_runtime) (js "Call mom") host2 searched
           searched_reachable).
  vm_compute. split; repeat constructor.
Defined.

(** X9.  [setSearch] and [setFilter] commute, and of two calls of the
    same kind the later one decides: the store after them does not depend
    on the order or on the values set before. *)
Theorem view_calls_compose `{Runtime} (term term' status status' : jsstring)
    (m : TodoManager.t) :
  TodoManager.setSearch term (TodoManager.setFilter status m)
  = TodoManager.setFilter status (TodoManager.setSearch term m) /\
  TodoManager.setSearch term (TodoManager.setSearch term' m)
  = TodoManager.setSearch term m /\
  TodoManager.setFilter status (TodoManager.setFilter status' m)
  = TodoManager.setFilter status m.
Proof. repeat split. Qed.

(* ===================================================================== *)
(** ** Persistence                                                        *)
(* ===================================================================== *)

(** A call either leaves the collection and the world alone, or ends by
    saving the collection it leaves. *)
Lemma run_cases `{Runtime} (c : call) (m : TodoManager.t) (w : World) :
  (TodoManager.todos (fst (run c (m, w))) = TodoManager.todos m /\
   snd (run c (m, w)) = w) \/
  (exists h, host_of c = Some h /\
             snd (run c (m, w))
             = StorageService.saveTodos
                 (TodoManager.todos (fst (run c (m, w)))) h w).
Proof.
  destruct c; simpl; try (left; split; reflexivity).
  - unfold TodoManager.addTodo.
    destruct (Utils.validateTodo text); simpl; [right|left; auto].
    exists h. auto.
  - unfold TodoManager.updateTodo.
    destruct (find_first _ _); simpl; [|left; auto].
    destruct (TodoItem.updateText _ _ _); simpl; [right|left; auto].
    exists h. auto.
  - unfold TodoManager.toggleTodo.
    destruct (find_first _ _); simpl; [right|left; auto].
    exists h. auto.
  - unfold TodoManager.deleteTodo.
    destruct (findIndex _ _); simpl; [right|left; auto].
    exists h. auto.
Qed.

(** X10.  While [localStorage.setItem] works, a call that changes the
    collection leaves in storage the encoding of the whole collection as
    it now is, and a call on a store whose storage holds the encoding of
    its collection leaves it so. *)
Theorem changes_are_persisted `{Runtime} (c : call) (s : state) :
  storage_works c = true ->
  (TodoManager.todos (fst (run c s)) <> TodoManager.todos (fst s) ->
   in_sync (run c s)) /\
  (in_sync s -> in_sync (run c s)).
Proof.
  destruct s as [m w]. intros Ok.
  destruct (run_cases c m w) as [[Et Ew]|[h [Eh Ew]]].
  - split.
    + intros N. contradiction.
    + unfold in_sync. rewrite Ew. cbn [fst snd]. now rewrite Et.
  - assert (S : in_sync (run c (m, w))).
    { unfold in_sync. rewrite Ew. unfold StorageService.saveTodos.
      unfold storage_works in Ok. rewrite Eh in Ok. rewrite Ok. reflexivity. }
    split; intros _; exact S.
Qed.

Lemma changes_are_persisted_witness :
  in_sync (H := sample_runtime)
    (run (H := sample_runtime) (ToggleTodo id0 host2) two_tasks).
Proof.
  apply (proj1 (changes_are_persisted (H := sample_runtime)
                  (ToggleTodo id0 host2) two_tasks eq_refl)).
  intros E. apply (f_equal (map TodoItem.completed)) in E.
    vm_compute in E. discriminate E.
Defined.

Lemma run_memory `{Runtime} (b : bool) (c : call) (m : TodoManager.t)
    (w w' : World) :
  fst (run (with_storage b c) (m, w)) = fst (run c (m, w')).
Proof.
  destruct c; simpl; try reflexivity.
  - unfold TodoManager.addTodo. now destruct (Utils.validateTodo text).
  - unfold TodoManager.updateTodo. destruct (find_first _ _); [|reflexivity].
    unfold TodoItem.updateText. now destruct (Utils.validateTodo newText).
  - unfold TodoManager.toggleTodo. now destruct (find_first _ _).
  - unfold TodoManager.deleteTodo. now destruct (findIndex _ _).
Qed.

(** X11.  The store in memory does not depend on storage: a call leaves
    the same collection, view and view state whether
    [localStorage.setItem] works or throws, and whatever the world.  When
    it throws, the stored text stays what it was and the console gets
    nothing, or exactly the error of [saveTodos] and its toast. *)
Theorem storage_failure_is_contained `{Runtime} (b : bool) (c : call)
    (m : TodoManager.t) (w w' : World) :
  fst (run (with_storage b c) (m, w)) = fst (run c (m, w')) /\
  (storage_works c = false ->
   stored (snd (run c (m, w))) = stored w /\
   (console (snd (run c (m, w))) = console w \/
    console (snd (run c (m, w))) = console w ++ save_failed_events)).
Proof.
  split; [apply run_memory|]. intros Ko.
  destruct (run_cases c m w) as [[_ Ew]|[h [Eh Ew]]]; rewrite Ew.
  - auto.
  - unfold storage_works in Ko. rewrite Eh in Ko.
    unfold StorageService.saveTodos. rewrite Ko. simpl. auto.
Qed.

Lemma storage_failure_is_contained_witness :
  stored (snd (run (H := sample_runtime)
                 (AddTodo (js "Call mom") (set_setItem_ok false host2))
                 (fst two_tasks, snd two_tasks)))
  = stored (snd two_tasks) /\
  (console (snd (run (H := sample_runtime)
                   (AddTodo (js "Call mom") (set_setItem_ok false host2))
                   (fst two_tasks, snd two_tasks)))
   = console (snd two_tasks) \/
   console (snd (run (H := sample_runtime)
                   (AddTodo (js "Call mom") (set_setItem_ok false host2))
                   (fst two_tasks, snd two_tasks)))
   = console (snd two_tasks) ++ save_failed_events).
Proof.
  apply (storage_failure_is_contained (H := sample_runtime) true
           (AddTodo (js "Call mom") (set_setItem_ok false host2))
           (fst two_tasks) (snd two_tasks) (snd two_tasks)).
  reflexivity.
Defined.

(** X12.  [clearTodos], when [removeItem] returns, removes the stored
    text and writes nothing to the console; a store constructed over the
    storage afterwards is empty, with the filter "all", no search term and
    nothing being edited, and its construction logs nothing; clearing
    when nothing is stored, hence clearing again, changes nothing.  When
    [removeItem] throws, the stored text is kept and the console gets,
    after what it held, exactly the error of [clearTodos] and its
    toast. *)
Theorem clearTodos_then_new `{Runtime} (hosts : nat -> Host) (w : World) :
  StorageService.clearTodos true w = {| stored := None; console := console w |} /\
  TodoManager.new hosts (StorageService.clearTodos true w)
  = (empty_manager, StorageService.clearTodos true w) /\
  (stored w = None -> StorageService.clearTodos true w = w) /\
  StorageService.clearTodos true (StorageService.clearTodos true w)
  = StorageService.clearTodos true w /\
  StorageService.clearTodos false w
  = {| stored := stored w;
       console := console w ++
         [ ConsoleError "Error clearing todos from storage:" None;
           Toast "Erro ao limpar as tarefas." "error" ] |}.
Proof.
  repeat split. intros E. destruct w as [st co]. simpl in *. now subst st.
Qed.

Lemma clearTodos_then_new_witness :
  TodoManager.new (H := sample_runtime) (fun _ => host2)
    (StorageService.clearTodos true (snd two_tasks))
  = (empty_manager, {| stored := None; console := console (snd two_tasks) |}).
Proof.
  rewrite (proj1 (proj2 (clearTodos_then_new (H := sample_runtime)
                           (fun _ => host2) (snd two_tasks)))).
  reflexivity.
Defined.

(** X13.  A stored text that is not empty and parses to an array of
    objects that each hold a string text loads with nothing logged: one
    task for each record, in the order of the records, each with the
    trimmed text of its record. *)
Theorem getTodos_loads_all `{Runtime} (hosts : nat -> Host) (w : World)
    (data : jsstring) (items : list json) :
  stored w = Some data -> data <> [] ->
  JSON_parse data = Some (JArr items) ->
  forallb decodable_record items = true ->
  exists todos,
    StorageService.getTodos hosts w = (todos, w) /\
    List.length todos = List.length items /\
    forall i item todo,
      nth_error items i = Some item -> nth_error todos i = Some todo ->
      exists fields s,
        item = JObj fields /\
        lookup_field (js "text") fields = Some (JStr s) /\
        TodoItem.text todo = trim s.
Proof.
  intros St Hne P D.
  unfold StorageService.getTodos, StorageService.decode. rewrite St.
  destruct data as [|c r]; [contradiction|]. rewrite P.
  assert (G : forall (l : list json) (k : nat),
             forallb decodable_record l = true ->
             exists todos,
               StorageService.map_fromJSON l hosts k = inr todos /\
               List.length todos = List.length l /\
               forall i item todo,
                 nth_error l i = Some item -> nth_error todos i = Some todo ->
                 exists fields s,
                   item = JObj fields /\
                   lookup_field (js "text") fields = Some (JStr s) /\
                   TodoItem.text todo = trim s).
  { induction l as [|item l IH]; intros k F.
    - exists []. repeat split. intros [|i] item todo E; discriminate.
    - cbn [forallb] in F. apply andb_true_iff in F. destruct F as [Di F].
      destruct (IH (S k) F) as [rest [Er [Lr Tr]]].
      destruct item as [| b | x | s | l0 | fields]; try discriminate.
      unfold decodable_record in Di.
      destruct (lookup_field (js "text") fields) as [[| b | x | s | l0 | fs]|] eqn:T;
        try discriminate.
      pose proof (fromJSON_object fields s (hosts k) T) as Ef.
      match type of Ef with _ = inr ?t => set (todo := t) in Ef end.
      assert (Tt : TodoItem.text todo = trim s) by reflexivity.
      exists (todo :: rest). cbn [StorageService.map_fromJSON].
      rewrite Ef, Er. repeat split; [simpl; now rewrite Lr|].
      intros [|i] item' todo' Ei Et; simpl in Ei, Et.
      + injection Ei as <-. injection Et as <-. now exists fields, s.
      + now apply (Tr i). }
  destruct (G items 0 D) as [todos [E [L T]]].
  exists todos. rewrite E. auto.
Qed.

Lemma getTodos_loads_all_witness :
  exists todos,
    StorageService.getTodos (H := sample_runtime) (fun _ => host0)
      (world_with (sample_stringify twins))
    = (todos, world_with (sample_stringify twins)) /\
    List.length todos = 2.
Proof.
  destruct (getTodos_loads_all (H := sample_runtime) (fun _ => host0)
              (world_with (sample_stringify twins)) (sample_stringify twins)
              [ sample_record "a" "Buy milk"; sample_record "a" "Walk dog" ]
              eq_refl) as [todos [E [L _]]].
  - discriminate.
  - reflexivity.
  - reflexivity.
  - exists todos. auto.
Defined.

(** X14.  When storage holds the encoding of the collection, [JSON.parse]
    undoes [JSON.stringify] on it, and the tasks have truthy ids and
    timestamps and a flag that is truthy or a boolean, a store constructed
    over that storage has the same collection, and logs nothing. *)
Theorem reload_restores `{Runtime} (s : state) (hosts : nat -> Host) :
  reachable s ->
  in_sync s ->
  (forall todo, In todo (TodoManager.todos (fst s)) ->
     truthy (TodoItem.createdAt todo) = true /\
     truthy (TodoItem.updatedAt todo) = true /\
     truthy (TodoItem.completed todo) || is_boolean (TodoItem.completed todo)
       = true) ->
  JSON_stringify (JArr (serialize (TodoManager.todos (fst s)))) <> [] ->
  JSON_parse (JSON_stringify (JArr (serialize (TodoManager.todos (fst s)))))
    = Some (JArr (serialize (TodoManager.todos (fst s)))) ->
  TodoManager.todos (fst (TodoManager.new hosts (snd s)))
    = TodoManager.todos (fst s) /\
  snd (TodoManager.new hosts (snd s)) = snd s.
Proof.
  intros R Sy W Hne P.
  assert (Sv : forallb survives_storage (TodoManager.todos (fst s)) = true).
  { apply forallb_forall. intros todo Hin.
    pose proof (proj1 (forallb_forall _ _) (reachable_tasks s R) todo Hin) as Q.
    apply andb_true_iff in Q. destruct Q as [I T]. apply str_eqb_eq in T.
    destruct (W todo Hin) as [C [U F]].
    unfold survives_storage. rewrite I, C, U, F, T, str_eqb_refl. reflexivity. }
  unfold TodoManager.new, TodoManager.loadTodos, StorageService.getTodos.
  unfold in_sync in Sy. rewrite Sy.
  destruct (JSON_stringify (JArr (serialize (TodoManager.todos (fst s)))))
    as [|c r] eqn:E; [contradiction|].
  unfold StorageService.decode. rewrite P. unfold serialize.
  rewrite (map_fromJSON_toJSON _ hosts 0 Sv). simpl. auto.
Qed.

Lemma reload_restores_witness :
  TodoManager.todos
    (fst (TodoManager.new (H := sample_runtime) (fun _ => host2) (snd twin_store)))
  = TodoManager.todos (fst twin_store) /\
  snd (TodoManager.new (H := sample_runtime) (fun _ => host2) (snd twin_store))
  = snd twin_store.
Proof.
  apply (reload_restores (H := sample_runtime) twin_store (fun _ => host2)
           twin_store_reachable).
  - reflexivity.
  - intros todo [<-|[<-|[]]]; repeat split.
  - discriminate.
  - reflexivity.
Defined.

(* ===================================================================== *)
(** ** Ids                                                                *)
(* ===================================================================== *)

Lemma split_at_underscore (a a' b b' : jsstring) :
  forallb is_digit a = true -> forallb is_digit a' = true ->
  a ++ 95%N :: b = a' ++ 95%N :: b' -> a = a' /\ b = b'.
Proof.
  revert a'. induction a as [|x a IH]; intros [|y a'] Da Da' E; simpl in *.
  - injection E as ->. auto.
  - injection E as <- _. discriminate.
  - injection E as -> _. discriminate.
  - apply andb_true_iff in Da, Da'. destruct Da as [_ Da]. destruct Da' as [_ Da'].
    injection E as -> E. destruct (IH a' Da Da' E) as [-> ->]. auto.
Qed.

(** X15.  Two generated ids are equal only when both the [Date.now()]
    reading and the random fragment are: a different millisecond, or a
    different fragment, gives a different id.  ([Date.now()] prints as
    decimal digits.) *)
Theorem generateId_injective (h h' : Host) :
  forallb is_digit (date_now h) = true ->
  forallb is_digit (date_now h') = true ->
  Utils.generateId h = Utils.generateId h' ->
  date_now h = date_now h' /\ random36 h = random36 h'.
Proof.
  intros D D' E. unfold Utils.generateId in E.
  apply app_inv_head in E. change (js "_") with [95%N] in E. simpl in E.
  exact (split_at_underscore _ _ _ _ D D' E).
Qed.

Lemma generateId_injective_witness : Utils.generateId host0 <> Utils.generateId host1.
Proof.
  intros E.
  destruct (generateId_injective host0 host1 eq_refl eq_refl E) as [D _].
  discriminate D.
Defined.

Lemma map_mutate_first {A B : Type} (g : A -> B) (p : A -> bool) (f : A -> A)
    (l : list A) :
  (forall x, g (f x) = g x) -> map g (mutate_first p f l) = map g l.
Proof.
  intros Hf. induction l as [|x l IH]; simpl; [reflexivity|].
  destruct (p x); simpl; [now rewrite Hf|now rewrite IH].
Qed.

Lemma splice1_incl {A : Type} (i : nat) (l : list A) (y : A) :
  In y (splice1 i l) -> In y l.
Proof.
  revert i. induction l as [|x l IH]; intros i; simpl; [tauto|].
  destruct i; simpl; [tauto|]. intros [->|Hy]; [tauto|]. right. now apply (IH i).
Qed.

Lemma NoDup_map_splice1 {A B : Type} (g : A -> B) (i : nat) (l : list A) :
  NoDup (map g l) -> NoDup (map g (splice1 i l)).
Proof.
  revert i. induction l as [|x l IH]; intros i; simpl; [trivial|].
  intros N. inversion N as [|? ? Hx Hl]; subst.
  destruct i; simpl; [exact Hl|]. constructor; [|now apply IH].
  intros Hin. apply Hx. apply in_map_iff in Hin. destruct Hin as [y [Ey Hy]].
  apply in_map_iff. exists y. split; [exact Ey|]. now apply (splice1_incl i).
Qed.

(** X16.  The store never makes two tasks share an id by itself: when the
    ids of the collection are distinct, they are distinct after
    [updateTodo], [toggleTodo], [deleteTodo], [setSearch], [setFilter],
    [startEditing] and [stopEditing] whatever their outcome, and after
    [addTodo] whenever the id it generates is not already in the
    collection. *)
Theorem unique_ids_kept `{Runtime} (c : call) (s : state) :
  unique_ids (TodoManager.todos (fst s)) ->
  (forall text h, c = AddTodo text h ->
     ~ In (JStr (Utils.generateId h)) (map TodoItem.id (TodoManager.todos (fst s)))) ->
  unique_ids (TodoManager.todos (fst (run c s))).
Proof.
  destruct s as [m w]. unfold unique_ids. simpl. intros U Fresh.
  destruct c; simpl; trivial.
  - unfold TodoManager.addTodo.
    destruct (Utils.validateTodo text) as [valid|e]; simpl; [|exact U].
    constructor; [|exact U]. exact (Fresh text h eq_refl).
  - unfold TodoManager.updateTodo.
    destruct (find_first _ _) as [todo|] eqn:F; simpl; [|exact U].
    unfold TodoItem.updateText.
    destruct (Utils.validateTodo newText) as [valid|e]; simpl; [|exact U].
    destruct (find_first_split _ _ _ F) as [l1 [l2 [E [H1 Hx]]]].
    rewrite E, (mutate_first_app _ _ l1 l2 todo H1 Hx).
    rewrite E in U. rewrite map_app in *. exact U.
  - unfold TodoManager.toggleTodo.
    destruct (find_first _ _) as [todo|]; simpl; [|exact U].
    now rewrite map_mutate_first.
  - unfold TodoManager.deleteTodo.
    destruct (findIndex _ _) as [i|]; simpl; [|exact U].
    now apply NoDup_map_splice1.
Qed.

Lemma unique_ids_kept_witness :
  unique_ids
    (TodoManager.todos
       (fst (run (H := sample_runtime) (AddTodo (js "Call mom") host2) two_tasks))).
Proof.
  apply (unique_ids_kept (H := sample_runtime) (AddTodo (js "Call mom") host2)
           two_tasks).
  - unfold unique_ids. vm_compute.
    constructor; [intros [E|[]]; discriminate E|].
    constructor; [intros []|constructor].
  - intros text h E. injection E as <- <-. vm_compute.
    intros [E|[E|[]]]; discriminate E.
Defined.

(* ===================================================================== *)
(** ** Statistics after a change                                          *)
(* ===================================================================== *)

Lemma filter_length_app_cons {A : Type} (p : A -> bool) (l1 l2 : list A) (x : A) :
  List.length (filter p (l1 ++ x :: l2))
  = List.length (filter p l1) + (if p x then 1 else 0) + List.length (filter p l2).
Proof.
  rewrite filter_app, length_app. simpl. destruct (p x); simpl; lia.
Qed.

(** X17.  A successful [addTodo] raises the total and the pending count
    by one and leaves the completed count. *)
Theorem stats_after_add `{Runtime} (text : jsstring) (h : Host)
    (m : TodoManager.t) (w : World) :
  1 <= List.length (trim text) <= 100 ->
  let before := TodoManager.getStats m in
  let after := TodoManager.getStats (manager_of (TodoManager.addTodo text h m w)) in
  (TodoManager.total after = TodoManager.total before + 1 /\
   TodoManager.pending after = TodoManager.pending before + 1 /\
   TodoManager.completed after = TodoManager.completed before)%Z.
Proof.
  intros L. apply validateTodo_ok in L.
  rewrite (addTodo_accepts text (trim text) h m w L).
  unfold manager_of, TodoManager.getStats.
  cbn [fst snd TodoManager.todos TodoManager.applyFilters TodoManager.set_todos
       TodoManager.total TodoManager.pending TodoManager.completed filter
       TodoItem.completed TodoItem.new truthy List.length].
  repeat split; lia.
Qed.

Lemma stats_after_add_witness :
  TodoManager.getStats
    (manager_of (TodoManager.addTodo (H := sample_runtime) (js "Call mom") host2
                   (fst two_tasks) (snd two_tasks)))
  = {| TodoManager.total := 3; TodoManager.pending := 3;
       TodoManager.completed := 0 |}.
Proof.
  destruct (stats_after_add (H := sample_runtime) (js "Call mom") host2
              (fst two_tasks) (snd two_tasks)) as [T [P C]].
  - vm_compute. split; repeat constructor.
  - destruct (TodoManager.getStats _) as [t p c]. simpl in T, P, C.
    rewrite T, P, C. reflexivity.
Defined.

(** X18.  A successful [toggleTodo] keeps the total and moves one task
    between pending and completed: the completed count goes down by one
    when the task's flag was truthy and up by one when it was not. *)
Theorem stats_after_toggle `{Runtime} (id : jsstring) (h : Host)
    (m : TodoManager.t) (w : World) (todo : TodoItem.t) :
  find_first (TodoManager.has_id id) (TodoManager.todos m) = Some todo ->
  let before := TodoManager.getStats m in
  let after := TodoManager.getStats (manager_of (TodoManager.toggleTodo id h m w)) in
  (TodoManager.total after = TodoManager.total before /\
   TodoManager.completed after
   = TodoManager.completed before + 1 - 2 * flag_count (TodoItem.completed todo) /\
   TodoManager.pending after
   = TodoManager.pending before - 1 + 2 * flag_count (TodoItem.completed todo))%Z.
Proof.
  intros F. destruct (toggleTodo_found id h m w todo F) as [l1 [l2 [E [_ [_ ->]]]]].
  unfold manager_of, TodoManager.getStats.
  cbn [fst snd TodoManager.todos TodoManager.applyFilters TodoManager.set_todos
       TodoManager.total TodoManager.pending TodoManager.completed].
  rewrite E, !filter_length_app_cons, !length_app.
  cbn [List.length TodoItem.completed TodoItem.toggleComplete truthy].
  unfold flag_count. destruct (truthy (TodoItem.completed todo));
    cbn [negb]; repeat split; lia.
Qed.

Lemma stats_after_toggle_witness :
  TodoManager.getStats
    (manager_of (TodoManager.toggleTodo (H := sample_runtime) id0 host2
                   (fst two_tasks) (snd two_tasks)))
  = {| TodoManager.total := 2; TodoManager.pending := 1;
       TodoManager.completed := 1 |}.
Proof.
  destruct (stats_after_toggle (H := sample_runtime) id0 host2
              (fst two_tasks) (snd two_tasks)
              (TodoItem.new (js "Walk dog") None host0) eq_refl) as [T [C P]].
  destruct (TodoManager.getStats _) as [t p c]. simpl in T, P, C.
  rewrite T, P, C. reflexivity.
Defined.

(** X19.  A successful [deleteTodo] lowers the total by one, and the
    completed count by one when the removed task's flag was truthy, the
    pending count by one when it was not. *)
Theorem stats_after_delete `{Runtime} (id : jsstring) (h : Host)
    (m : TodoManager.t) (w : World) (todo : TodoItem.t) :
  find_first (TodoManager.has_id id) (TodoManager.todos m) = Some todo ->
  let before := TodoManager.getStats m in
  let after := TodoManager.getStats (manager_of (TodoManager.deleteTodo id h m w)) in
  (TodoManager.total after = TodoManager.total before - 1 /\
   TodoManager.completed after
   = TodoManager.completed before - flag_count (TodoItem.completed todo) /\
   TodoManager.pending after
   = TodoManager.pending before - 1 + flag_count (TodoItem.completed todo))%Z.
Proof.
  intros F. destruct (deleteTodo_found id h m w todo F) as [l1 [l2 [E [_ [_ ->]]]]].
  unfold manager_of, TodoManager.getStats.
  cbn [fst snd TodoManager.todos TodoManager.applyFilters TodoManager.set_todos
       TodoManager.total TodoManager.pending TodoManager.completed].
  rewrite E, filter_length_app_cons, filter_app, !length_app.
  cbn [List.length].
  unfold flag_count. destruct (truthy (TodoItem.completed todo));
    repeat split; lia.
Qed.

Lemma stats_after_delete_witness :
  TodoManager.getStats
    (manager_of (TodoManager.deleteTodo (H := sample_runtime) id0 host2
                   (fst two_tasks) (snd two_tasks)))
  = {| TodoManager.total := 1; TodoManager.pending := 1;
       TodoManager.completed := 0 |}.
Proof.
  destruct (stats_after_delete (H := sample_runtime) id0 host2
              (fst two_tasks) (snd two_tasks)
              (TodoItem.new (js "Walk dog") None host0) eq_refl) as [T [C P]].
  destruct (TodoManager.getStats _) as [t p c]. simpl in T, P, C.
  rewrite T, P, C. reflexivity.
Defined.

(* ===================================================================== *)
(** ** The editing slot and the collection                                *)
(* ===================================================================== *)

(** X20.  [deleteTodo] does not look at the editing slot: deleting the
    task that is being edited, when no other task has its id, leaves the
    slot holding the id of a task that is gone, and [getEditingTodo],
    which returned that task before, returns [undefined] after. *)
Theorem delete_while_editing `{Runtime} (id : jsstring) (h : Host)
    (m : TodoManager.t) (w : World) (todo : TodoItem.t) :
  find_first (TodoManager.has_id id) (TodoManager.todos m) = Some todo ->
  TodoManager.editingTodoId m = Some id ->
  id <> [] ->
  List.length (filter (TodoManager.has_id id) (TodoManager.todos m)) = 1 ->
  let m' := manager_of (TodoManager.deleteTodo id h m w) in
  TodoManager.getEditingTodo m = TodoManager.EditingTodo todo /\
  outcome_of (TodoManager.deleteTodo id h m w) = Ok tt /\
  TodoManager.editingTodoId m' = Some id /\
  TodoManager.getEditingTodo m' = TodoManager.EditingUndefined.
Proof.
  intros F Ed Hne Once m'. subst m'.
  destruct (deleteTodo_found id h m w todo F) as [l1 [l2 [E [H1 [Hx ->]]]]].
  unfold TodoManager.getEditingTodo, outcome_of, manager_of. simpl.
  rewrite Ed, F. destruct id as [|c r]; [contradiction|].
  repeat split.
  assert (N : find_first (TodoManager.has_id (c :: r)) (l1 ++ l2) = None).
  { apply find_first_none. apply forallb_app_both; [exact H1|].
    apply filter_none. rewrite E, filter_app in Once. simpl in Once.
    rewrite Hx in Once. rewrite (proj2 (filter_none _ l1) H1) in Once.
    simpl in Once. destruct (filter (TodoManager.has_id (c :: r)) l2);
      [reflexivity|discriminate]. }
  now rewrite N.
Qed.

Lemma delete_while_editing_witness :
  let m' := manager_of (TodoManager.deleteTodo (H := sample_runtime) id0 host2
                          editing_walk_dog (snd two_tasks)) in
  TodoManager.getEditingTodo editing_walk_dog
    = TodoManager.EditingTodo (TodoItem.new (js "Walk dog") None host0) /\
  outcome_of (TodoManager.deleteTodo (H := sample_runtime) id0 host2
                editing_walk_dog (snd two_tasks)) = Ok tt /\
  TodoManager.editingTodoId m' = Some id0 /\
  TodoManager.getEditingTodo m' = TodoManager.EditingUndefined.
Proof.
  apply (delete_while_editing (H := sample_runtime) id0 host2 editing_walk_dog
           (snd two_tasks) (TodoItem.new (js "Walk dog") None host0));
    try reflexivity.
  discriminate.
Defined.

Lemma has_id_generated (text : jsstring) (h : Host) :
  TodoManager.has_id (Utils.generateId h) (TodoItem.new text None h) = true.
Proof. unfold TodoManager.has_id. simpl. apply str_eqb_refl. Qed.

(** X21.  The task that a successful [addTodo] returns is the one that
    its generated id finds afterwards, even when an older task has the
    same id; and [deleteTodo] of that id, called next, succeeds and gives
    back the collection as it was before the add. *)
Theorem add_then_delete `{Runtime} (text : jsstring) (h h' : Host)
    (m : TodoManager.t) (w : World) :
  1 <= List.length (trim text) <= 100 ->
  let r := TodoManager.addTodo text h m w in
  let r' := TodoManager.deleteTodo (Utils.generateId h) h'
              (manager_of r) (world_of r) in
  exists todo,
    outcome_of r = Ok todo /\
    TodoItem.id todo = JStr (Utils.generateId h) /\
    find_first (TodoManager.has_id (Utils.generateId h))
      (TodoManager.todos (manager_of r)) = Some todo /\
    outcome_of r' = Ok tt /\
    TodoManager.todos (manager_of r') = TodoManager.todos m.
Proof.
  intros L r r'. subst r r'. apply validateTodo_ok in L.
  rewrite (addTodo_accepts text (trim text) h m w L).
  exists (TodoItem.new (trim text) None h).
  unfold outcome_of, manager_of, world_of, TodoManager.deleteTodo.
  cbn [fst snd TodoManager.todos TodoManager.applyFilters TodoManager.set_todos
       find_first findIndex].
  rewrite (has_id_generated (trim text) h). repeat split.
Qed.

Lemma add_then_delete_witness :
  let r := TodoManager.addTodo (H := sample_runtime) (js "Call mom") host2
             (fst two_tasks) (snd two_tasks) in
  let r' := TodoManager.deleteTodo (H := sample_runtime) (Utils.generateId host2)
              host2 (manager_of r) (world_of r) in
  exists todo,
    outcome_of r = Ok todo /\
    TodoItem.id todo = JStr (Utils.generateId host2) /\
    find_first (TodoManager.has_id (Utils.generateId host2))
      (TodoManager.todos (manager_of r)) = Some todo /\
    outcome_of r' = Ok tt /\
    TodoManager.todos (manager_of r') = TodoManager.todos (fst two_tasks).
Proof.
  apply (add_then_delete (H := sample_runtime) (js "Call mom") host2 host2
           (fst two_tasks) (snd two_tasks)).
  vm_compute. split; repeat constructor.
Defined.

(* ===================================================================== *)
(** ** Validation again                                                   *)
(* ===================================================================== *)

(** X22.  Validation sees the trimmed text only: it gives the same
    result on a text and on its trimmed form, and a text it returns is
    one it accepts again and returns unchanged. *)
Theorem validateTodo_stable (text : jsstring) :
  Utils.validateTodo (trim text) = Utils.validateTodo text /\
  (forall valid, Utils.validateTodo text = Ok valid ->
                 Utils.validateTodo valid = Ok valid).
Proof.
  assert (E : Utils.validateTodo (trim text) = Utils.validateTodo text).
  { unfold Utils.validateTodo. now rewrite trim_idempotent. }
  split; [exact E|]. intros valid V.
  pose proof (validateTodo_returns text valid V) as [-> _]. now rewrite E.
Qed.

Lemma validateTodo_stable_witness :
  Utils.validateTodo (js "Buy milk") = Ok (js "Buy milk").
Proof.
  apply (proj2 (validateTodo_stable (js "  Buy milk "))). reflexivity.
Defined.

(* ===================================================================== *)
(** ** The handlers of the UI                                             *)
(* ===================================================================== *)

Lemma validateTodo_trimmed (value : jsstring) :
  1 <= List.length (trim value) <= 100 ->
  Utils.validateTodo (trim value) = Ok (trim value).
Proof.
  intros L. rewrite <- (trim_idempotent value) at 2.
  apply validateTodo_ok. now rewrite trim_idempotent.
Qed.

Lemma getEditingTodo_found (id : jsstring) (m : TodoManager.t) (todo : TodoItem.t) :
  find_first (TodoManager.has_id id) (TodoManager.todos m) = Some todo ->
  TodoManager.editingTodoId m = Some id -> id <> [] ->
  TodoManager.getEditingTodo m = TodoManager.EditingTodo todo.
Proof.
  intros F Ed Hne. unfold TodoManager.getEditingTodo. rewrite Ed.
  destruct id as [|c r]; [contradiction|]. now rewrite F.
Qed.

(** X23.  Submitting the edit form with a text whose trimmed length is
    between 1 and 100, while a task of the collection is being edited,
    updates that task's text to the trimmed text, saves the collection,
    shows the success toast, and leaves the editing slot empty: the
    handler calls [hideEditForm], hence [stopEditing], after the update. *)
Theorem handleEditTodo_success `{Runtime} (value id : jsstring) (h : Host)
    (s : state) (todo : TodoItem.t) :
  find_first (TodoManager.has_id id) (TodoManager.todos (fst s)) = Some todo ->
  TodoManager.editingTodoId (fst s) = Some id ->
  id <> [] ->
  1 <= List.length (trim value) <= 100 ->
  let s' := UIController.handleEditTodo value h s in
  TodoManager.editingTodoId (fst s') = None /\
  exists l1 l2 todo',
    TodoManager.todos (fst s) = l1 ++ todo :: l2 /\
    TodoManager.todos (fst s') = l1 ++ todo' :: l2 /\
    TodoItem.text todo' = trim value /\
    TodoItem.id todo' = TodoItem.id todo /\
    snd s' = Utils.showToast "Tarefa atualizada com sucesso!" "success"
               (StorageService.saveTodos (l1 ++ todo' :: l2) h (snd s)).
Proof.
  intros F Ed Hne L s'. subst s'. unfold UIController.handleEditTodo.
  rewrite (getEditingTodo_found id (fst s) todo F Ed Hne), Ed.
  pose proof (validateTodo_trimmed value L) as V.
  destruct (trim value) as [|c r] eqn:T; [simpl in L; lia|].
  destruct (updateTodo_found id (c :: r) (c :: r) h (fst s) (snd s) todo F V)
    as [l1 [l2 [todo' [E [_ [U ->]]]]]].
  unfold TodoItem.updateText in U. rewrite V in U. injection U as <-.
  simpl. split; [reflexivity|].
  eexists l1, l2, _. repeat split. exact E.
Qed.

Lemma handleEditTodo_success_witness :
  let s' := UIController.handleEditTodo (H := sample_runtime) (js " Walk the dog ")
              host2 (editing_walk_dog, snd two_tasks) in
  TodoManager.editingTodoId (fst s') = None /\
  exists l1 l2 todo',
    TodoManager.todos editing_walk_dog
      = l1 ++ TodoItem.new (js "Walk dog") None host0 :: l2 /\
    TodoManager.todos (fst s') = l1 ++ todo' :: l2 /\
    TodoItem.text todo' = js "Walk the dog" /\
    TodoItem.id todo' = JStr id0 /\
    snd s' = Utils.showToast "Tarefa atualizada com sucesso!" "success"
               (StorageService.saveTodos (H := sample_runtime)
                  (l1 ++ todo' :: l2) host2 (snd two_tasks)).
Proof.
  apply (handleEditTodo_success (H := sample_runtime) (js " Walk the dog ") id0
           host2 (editing_walk_dog, snd two_tasks)
           (TodoItem.new (js "Walk dog") None host0) eq_refl eq_refl).
  - discriminate.
  - vm_compute. split; repeat constructor.
Defined.

(** X24.  Submitting the edit form does nothing at all, no toast
    included, when the text is empty once trimmed, or when no task is
    being edited, or when the task being edited is no longer in the
    collection.  With a task being edited and a text longer than 100
    once trimmed, it shows the TooLong message as an error toast and
    leaves the store, the editing slot included, and the storage as they
    were. *)
Theorem handleEditTodo_rejected `{Runtime} (value : jsstring) (h : Host)
    (s : state) :
  (trim value = [] -> UIController.handleEditTodo value h s = s) /\
  (TodoManager.getEditingTodo (fst s) = TodoManager.EditingNull ->
   UIController.handleEditTodo value h s = s) /\
  (TodoManager.getEditingTodo (fst s) = TodoManager.EditingUndefined ->
   UIController.handleEditTodo value h s = s) /\
  (forall todo,
     TodoManager.getEditingTodo (fst s) = TodoManager.EditingTodo todo ->
     100 < List.length (trim value) ->
     UIController.handleEditTodo value h s
     = (fst s, Utils.showToast (message TooLong) "error" (snd s))).
Proof.
  unfold UIController.handleEditTodo. repeat split.
  - intros ->. reflexivity.
  - intros ->. now destruct (trim value).
  - intros ->. now destruct (trim value).
  - intros todo G L. rewrite G.
    unfold TodoManager.getEditingTodo in G.
    destruct (TodoManager.editingTodoId (fst s)) as [[|c r]|]; try discriminate.
    destruct (find_first (TodoManager.has_id (c :: r)) (TodoManager.todos (fst s)))
      as [todo0|] eqn:F; [|discriminate].
    destruct (trim value) as [|c' r'] eqn:T; [simpl in L; lia|].
    unfold TodoManager.updateTodo, TodoItem.updateText. rewrite F.
    assert (V : Utils.validateTodo (c' :: r') = Throw TooLong).
    { apply validateTodo_too_long. rewrite <- T, trim_idempotent, T. exact L. }
    now rewrite V.
Qed.

Lemma handleEditTodo_rejected_witness :
  UIController.handleEditTodo (H := sample_runtime) (repeat_char 97 101) host2
    (editing_walk_dog, snd two_tasks)
  = (editing_walk_dog, Utils.showToast (message TooLong) "error" (snd two_tasks)).
Proof.
  apply (proj2 (proj2 (proj2
           (handleEditTodo_rejected (H := sample_runtime) (repeat_char 97 101)
              host2 (editing_walk_dog, snd two_tasks))))
           (TodoItem.new (js "Walk dog") None host0)).
  - reflexivity.
  - vm_compute. repeat constructor.
Defined.

(** X25.  Submitting the add form with a text that is empty once trimmed
    does nothing and shows nothing; with any text, what it writes to the
    console never holds the EmptyInput message; with a text longer than
    100 once trimmed, it shows the TooLong message as an error toast and
    leaves the store and the storage as they were. *)
Theorem handleAddTodo_feedback `{Runtime} (value : jsstring) (h : Host)
    (s : state) :
  (trim value = [] -> UIController.handleAddTodo value h s = s) /\
  (100 < List.length (trim value) ->
   UIController.handleAddTodo value h s
   = (fst s, Utils.showToast (message TooLong) "error" (snd s))) /\
  exists events,
    console (snd (UIController.handleAddTodo value h s))
      = console (snd s) ++ events /\
    ~ In (Toast (message EmptyInput) "error") events.
Proof.
  unfold UIController.handleAddTodo.
  destruct (trim value) as [|c r] eqn:T.
  - split; [reflexivity|]. split; [simpl; lia|].
    exists []. rewrite app_nil_r. auto.
  - unfold TodoManager.addTodo.
    assert (Vt : Utils.validateTodo (c :: r) = Utils.validateTodo value).
    { rewrite <- T. unfold Utils.validateTodo. now rewrite trim_idempotent. }
    rewrite Vt. split; [discriminate|]. split.
    + intros L. rewrite <- T in L. apply validateTodo_too_long in L. now rewrite L.
    + destruct (Utils.validateTodo value) as [valid|e] eqn:V.
      * cbn [fst snd Utils.showToast console]. unfold TodoManager.saveTodos,
          StorageService.saveTodos.
        destruct (setItem_ok h); cbn [console].
        -- eexists. split; [reflexivity|]. intros [E|[]]. discriminate E.
        -- eexists. rewrite <- app_assoc. split; [reflexivity|].
           intros [E|[E|[E|[]]]]; discriminate E.
      * cbn [fst snd Utils.showToast console].
        eexists. split; [reflexivity|]. intros [E|[]].
        destruct e; try discriminate E.
        apply validateTodo_empty in V. congruence.
Qed.

Lemma handleAddTodo_feedback_witness :
  UIController.handleAddTodo (H := sample_runtime) (js "   ") host2 two_tasks
  = two_tasks.
Proof.
  apply (handleAddTodo_feedback (H := sample_runtime) (js "   ") host2 two_tasks).
  reflexivity.
Defined.

(** X26.  On an id that no task of the collection has, the toggle and
    delete buttons show the NotFound message as an error toast and leave
    the store and the storage as they were, and the edit button does
    nothing: the editing slot is only ever set, through the UI, to the id
    of a task that is in the collection at that moment.  A delete that
    the user does not confirm does nothing. *)
Theorem handlers_on_absent_id `{Runtime} (todoId : jsstring) (h : Host)
    (s : state) :
  (find_first (TodoManager.has_id todoId) (TodoManager.todos (fst s)) = None ->
   UIController.handleToggleTodo todoId h s
   = (fst s, Utils.showToast (message NotFound) "error" (snd s)) /\
   UIController.handleDeleteTodo todoId true h s
   = (fst s, Utils.showToast (message NotFound) "error" (snd s)) /\
   UIController.handleStartEdit todoId s = s) /\
  UIController.handleDeleteTodo todoId false h s = s /\
  (forall todo,
     find_first (TodoManager.has_id todoId) (TodoManager.todos (fst s))
       = Some todo ->
     todoId <> [] ->
     TodoManager.getEditingTodo (fst (UIController.handleStartEdit todoId s))
     = TodoManager.EditingTodo todo).
Proof.
  split; [|split].
  - intros F. destruct (absent_not_found todoId [] h (fst s) (snd s) F)
      as [_ [Et Ed]].
    unfold UIController.handleToggleTodo, UIController.handleDeleteTodo,
      UIController.handleStartEdit. rewrite Et, Ed, F. destruct s. auto.
  - reflexivity.
  - intros todo F Hne. unfold UIController.handleStartEdit. rewrite F.
    apply (getEditingTodo_found todoId); [exact F|reflexivity|exact Hne].
Qed.

Lemma handlers_on_absent_id_witness :
  UIController.handleToggleTodo (H := sample_runtime) (js "todo_gone") host2 two_tasks
  = (fst two_tasks, Utils.showToast (message NotFound) "error" (snd two_tasks)) /\
  UIController.handleDeleteTodo (H := sample_runtime) (js "todo_gone") true host2
    two_tasks
  = (fst two_tasks, Utils.showToast (message NotFound) "error" (snd two_tasks)) /\
  UIController.handleStartEdit (js "todo_gone") two_tasks = two_tasks.
Proof.
  apply (handlers_on_absent_id (H := sample_runtime) (js "todo_gone") host2
           two_tasks).
  reflexivity.
Defined.

(** X27.  In every state of the store, for any filter string, the view
    is the collection with some tasks left out: the tasks that pass the
    search and the status filter, in the order of the collection; so
    every task of the view is in the collection and the view is not
    longer than it. *)
Theorem view_is_filter `{Runtime} (s : state) :
  reachable s ->
  TodoManager.filteredTodos (fst s)
    = filter (passes (fst s)) (TodoManager.todos (fst s)) /\
  incl (TodoManager.filteredTodos (fst s)) (TodoManager.todos (fst s)) /\
  List.length (TodoManager.filteredTodos (fst s))
    <= List.length (TodoManager.todos (fst s)).
Proof.
  intros R.
  assert (E : TodoManager.filteredTodos (fst s)
              = filter (passes (fst s)) (TodoManager.todos (fst s))).
  { rewrite <- applyFilters_passes. now rewrite (reachable_current s R). }
  split; [exact E|]. rewrite E. split.
  - apply incl_filter.
  - clear E. induction (TodoManager.todos (fst s)) as [|x l IH]; simpl; [lia|].
    destruct (passes (fst s) x); simpl; lia.
Qed.

Lemma view_is_filter_witness :
  TodoManager.filteredTodos (fst searched)
    = filter (passes (H := sample_runtime) (fst searched))
             (TodoManager.todos (fst searched)) /\
  incl (TodoManager.filteredTodos (fst searched)) (TodoManager.todos (fst searched)) /\
  List.length (TodoManager.filteredTodos (fst searched))
    <= List.length (TodoManager.todos (fst searched)).
Proof.
  exact (view_is_filter (H := sample_runtime) searched searched_reachable).
Defined.

(* ===================================================================== *)
(** ** The editing slot, the store and the adapter                        *)
(* ===================================================================== *)

(** The edit form, submitted with a valid text while a task of the
    collection is being edited, runs [updateTodo] on the slot's id with
    the trimmed text, which succeeds, then [stopEditing] on the store it
    leaves, then shows the success toast. *)
Lemma handleEditTodo_runs_update `{Runtime} (value id : jsstring) (h : Host)
    (m : TodoManager.t) (w : World) (todo : TodoItem.t) :
  find_first (TodoManager.has_id id) (TodoManager.todos m) = Some todo ->
  TodoManager.editingTodoId m = Some id ->
  id <> [] ->
  1 <= List.length (trim value) <= 100 ->
  outcome_of (TodoManager.updateTodo id (trim value) h m w) = Ok tt /\
  UIController.handleEditTodo value h (m, w)
  = (TodoManager.stopEditing
       (manager_of (TodoManager.updateTodo id (trim value) h m w)),
     Utils.showToast "Tarefa atualizada com sucesso!" "success"
       (world_of (TodoManager.updateTodo id (trim value) h m w))).
Proof.
  intros F Ed Hne L. unfold UIController.handleEditTodo. cbn [fst snd].
  rewrite (getEditingTodo_found id m todo F Ed Hne), Ed.
  pose proof (validateTodo_trimmed value L) as V.
  destruct (trim value) as [|c r] eqn:T; [simpl in L; lia|].
  destruct (updateTodo_found id (c :: r) (c :: r) h m w todo F V)
    as [l1 [l2 [todo' [_ [_ [_ ->]]]]]].
  split; reflexivity.
Qed.

(** C7, as amended.  [updateTodo] leaves the editing slot as it found it,
    whether it succeeds or throws: from Editing(id), a successful update
    of that id returns with the slot still Editing(id).  The slot goes to
    Idle through [stopEditing], and to Editing(id) through
    [startEditing id].  It is the UI adapter that calls [stopEditing]
    after a successful update: the edit form's handler, on a valid text
    while the task under that id is being edited, runs the update, which
    succeeds and leaves the slot Editing(id), then [stopEditing] on the
    store it left, and returns with the slot Idle. *)
Theorem editing_slot_transitions `{Runtime} (id newText : jsstring) (h : Host)
    (m : TodoManager.t) (w : World) :
  TodoManager.editingTodoId (manager_of (TodoManager.updateTodo id newText h m w))
    = TodoManager.editingTodoId m /\
  TodoManager.editingTodoId (TodoManager.stopEditing m) = None /\
  TodoManager.editingTodoId (TodoManager.startEditing id m) = Some id /\
  TodoManager.editingTodoId
    (TodoManager.stopEditing
       (manager_of (TodoManager.updateTodo id newText h m w))) = None /\
  (forall todo,
     find_first (TodoManager.has_id id) (TodoManager.todos m) = Some todo ->
     TodoManager.editingTodoId m = Some id ->
     id <> [] ->
     1 <= List.length (trim newText) <= 100 ->
     outcome_of (TodoManager.updateTodo id (trim newText) h m w) = Ok tt /\
     TodoManager.editingTodoId
       (manager_of (TodoManager.updateTodo id (trim newText) h m w)) = Some id /\
     UIController.handleEditTodo newText h (m, w)
     = (TodoManager.stopEditing
          (manager_of (TodoManager.updateTodo id (trim newText) h m w)),
        Utils.showToast "Tarefa atualizada com sucesso!" "success"
          (world_of (TodoManager.updateTodo id (trim newText) h m w))) /\
     TodoManager.editingTodoId
       (fst (UIController.handleEditTodo newText h (m, w))) = None).
Proof.
  split; [apply updateTodo_editing|]. repeat split.
  - destruct (handleEditTodo_runs_update newText id h m w todo) as [O _]; trivial.
  - rewrite updateTodo_editing. trivial.
  - destruct (handleEditTodo_runs_update newText id h m w todo) as [_ E]; trivial.
  - destruct (handleEditTodo_runs_update newText id h m w todo) as [_ E]; trivial.
    now rewrite E.
Qed.

Lemma editing_slot_transitions_witness :
  outcome_of (TodoManager.updateTodo (H := sample_runtime) id0 (js "Walk the dog")
                host2 editing_walk_dog (snd two_tasks)) = Ok tt /\
  TodoManager.editingTodoId
    (manager_of (TodoManager.updateTodo (H := sample_runtime) id0
                   (js "Walk the dog") host2 editing_walk_dog (snd two_tasks)))
  = Some id0 /\
  TodoManager.editingTodoId
    (fst (UIController.handleEditTodo (H := sample_runtime) (js " Walk the dog ")
            host2 (editing_walk_dog, snd two_tasks)))
  = None.
Proof.
  split; [reflexivity|]. split.
  - rewrite (proj1 (editing_slot_transitions (H := sample_runtime) id0
                      (js "Walk the dog") host2 editing_walk_dog (snd two_tasks))).
    reflexivity.
  - apply (proj2 (proj2 (proj2 (proj2
             (editing_slot_transitions (H := sample_runtime) id0
                (js " Walk the dog ") host2 editing_walk_dog (snd two_tasks)))))
             (TodoItem.new (js "Walk dog") None host0)).
    + reflexivity.
    + reflexivity.
    + discriminate.
    + vm_compute. split; repeat constructor.
Defined.

(** Whether [localStorage.getItem] returns or throws, [getTodos] returns
    a list, and the store constructed on it is a state of the store. *)
Lemma getTodos_try_reachable `{Runtime} (getItem_ok : bool) (hosts : nat -> Host)
    (w : World) :
  reachable
    (let (l, w') := StorageService.getTodos_try getItem_ok hosts w in
     (TodoManager.applyFilters (TodoManager.set_todos l empty_manager), w')).
Proof.
  destruct getItem_ok.
  - exact (reachable_new hosts w).
  - exact (reachable_new_denied w).
Qed.
